(** * DataConnector: a shallow embedding of [data_connector.py]

    The connector is a thin layer over external loaders (pandas, sqlite3,
    the MySQL, PostgreSQL and BigQuery drivers).  The loaders are not code
    of the repository: they are the fields of a [World] record, pure
    functions of the arguments the connector hands them.  Everything the
    connector itself does is modelled in a state-and-exception monad whose
    state holds the printed status lines, the sqlite3 connections created so
    far, the process environment and the log of loader invocations.

    Strings are sequences of 8-bit characters; [str.lower] is modelled on
    the ASCII letters, on which it agrees with Python. *)

From Stdlib Require Import String Ascii ZArith List Bool Lia.
From stdpp Require Import base option list strings gmap pretty.

Open Scope string_scope.

(** ** Python values and exceptions *)

(** The values that travel in a [**kwargs] bag. *)
Inductive pyval :=
| VNone
| VStr (s : string)
| VInt (z : Z).

Global Instance pyval_eq_dec : EqDecision pyval.
Proof. solve_decision. Defined.

(** Truth value testing: [None], the empty string and zero are false. *)
Definition truthy (v : pyval) : bool :=
  match v with
  | VNone => false
  | VStr s => negb (String.eqb s "")
  | VInt z => negb (Z.eqb z 0)
  end.

(** What an f-string substitutes for [{v}]. *)
Definition py_str (v : pyval) : string :=
  match v with
  | VNone => "None"
  | VStr s => s
  | VInt z => pretty z
  end.

(** [if s:] for a parameter declared [s: str = None]. *)
Definition given (o : option string) : bool :=
  match o with
  | None => false
  | Some s => negb (String.eqb s "")
  end.

(** An exception is observed through its class and its message. *)
Record exn := mk_exn { exn_class : string; exn_msg : string }.

Global Instance exn_eq_dec : EqDecision exn.
Proof. solve_decision. Defined.

Definition ImportError (msg : string) : exn := mk_exn "ImportError" msg.
Definition ValueError (msg : string) : exn := mk_exn "ValueError" msg.
Definition AttributeError (msg : string) : exn := mk_exn "AttributeError" msg.
Definition ModuleNotFoundError (msg : string) : exn :=
  mk_exn "ModuleNotFoundError" msg.

(** [except Exception] catches everything but the three classes that derive
    from [BaseException] directly. *)
Definition is_Exception (e : exn) : bool :=
  negb (bool_decide (exn_class e ∈
    ["KeyboardInterrupt"; "SystemExit"; "GeneratorExit"])).

(** [except ImportError] also catches its subclass [ModuleNotFoundError]. *)
Definition is_ImportError (e : exn) : bool :=
  bool_decide (exn_class e ∈ ["ImportError"; "ModuleNotFoundError"]).

Inductive outcome (A : Type) :=
| Return (a : A)
| Raise (e : exn).
Arguments Return {A} a.
Arguments Raise {A} e.

(** ** Tables *)

Record DataFrame := { columns : list string; rows : list (list pyval) }.

Definition shape (df : DataFrame) : nat * nat :=
  (length (rows df), length (columns df)).

(** What a loader may hand back: a frame, the dict of frames that
    [pd.read_excel] builds for several sheets, or some other object. *)
Inductive pyobj :=
| PyFrame (df : DataFrame)
| PyDict (sheets : list (string * DataFrame))
| PyOther (type_name : string).

(** The attribute access [df.shape]. *)
Definition getattr_shape (o : pyobj) : outcome (nat * nat) :=
  match o with
  | PyFrame df => Return (shape df)
  | PyDict _ => Raise (AttributeError "'dict' object has no attribute 'shape'")
  | PyOther t =>
      Raise (AttributeError ("'" +:+ t +:+ "' object has no attribute 'shape'"))
  end.

(** ** The state the connector acts on *)

Inductive status_line :=
| Status (text : string)
| Success (nrows ncols : nat)
| Error (text : string)
| Found (tables : list string)
| Warning (text : string).

Inductive txn_end := Committed | RolledBack.

Record connection :=
  { db_path : string; is_open : bool; last_txn : option txn_end }.

(** One entry per invocation of an external loader. *)
Inductive request :=
| ReqCsv (path : string) (kw : gmap string pyval)
| ReqExcel (path : string) (sheet_name : pyval) (kw : gmap string pyval)
| ReqJson (path : string) (kw : gmap string pyval)
| ReqConnect (path : string)
| ReqSelect (conn : nat) (sql : string) (kw : gmap string pyval)
| ReqCatalog (conn : nat)
| ReqSqlUrl (url sql : string) (kw : gmap string pyval)
| ReqGbq (env : gmap string string) (project sql : string)
         (kw : gmap string pyval).

Record state := mk_state
  { stdout : list status_line;
    connections : list connection;
    environ : gmap string string;
    issued : list request }.

Definition initial : state := mk_state [] [] ∅ [].

Definition open_handles (st : state) : list connection :=
  filter (λ c, is_open c = true) (connections st).

(** ** The monad *)

Definition M (A : Type) : Type := state → outcome A * state.

Global Instance M_ret : MRet M := λ A a st, (Return a, st).

Global Instance M_bind : MBind M := λ A B f m st,
  match m st with
  | (Return a, st') => f a st'
  | (Raise e, st') => (Raise e, st')
  end.

Definition raise {A} (e : exn) : M A := λ st, (Raise e, st).

(** [try: body / except cls as e: handler e]. *)
Definition try_except {A} (body : M A) (cls : exn → bool)
    (handler : exn → M A) : M A := λ st,
  match body st with
  | (Return a, st') => (Return a, st')
  | (Raise e, st') => if cls e then handler e st' else (Raise e, st')
  end.

Definition print (l : status_line) : M unit := λ st,
  (Return tt,
   mk_state (stdout st ++ [l]) (connections st) (environ st) (issued st)).

Definition record (r : request) (st : state) : state :=
  mk_state (stdout st) (connections st) (environ st) (issued st ++ [r]).

Definition lift {A} (o : outcome A) : M A := λ st, (o, st).

(** Whether the string holds a NUL character. *)
Fixpoint has_nul (s : string) : bool :=
  match s with
  | EmptyString => false
  | String c s' => Ascii.eqb c Ascii.zero || has_nul s'
  end.

(** Whether the string holds an equals sign. *)
Fixpoint has_equals (s : string) : bool :=
  match s with
  | EmptyString => false
  | String c s' => Ascii.eqb c "=" || has_equals s'
  end.

(** What [os.environ[k] = v] raises, if anything: a name or a value with
    a NUL character cannot be encoded for the operating system, and the
    name may be neither empty nor hold an equals sign. *)
Definition putenv_error (k v : string) : option exn :=
  if has_nul k || has_nul v then Some (ValueError "embedded null byte")
  else if String.eqb k "" || has_equals k
       then Some (ValueError "illegal environment variable name")
       else None.

(** [os.environ[k] = v]. *)
Definition setenv (k v : string) : M unit := λ st,
  match putenv_error k v with
  | Some e => (Raise e, st)
  | None =>
      (Return tt,
       mk_state (stdout st) (connections st) (<[k:=v]> (environ st))
         (issued st))
  end.

(** ** Text helpers *)

(** [str.lower] on one character. *)
Definition lower_ascii (c : ascii) : ascii :=
  let n := nat_of_ascii c in
  if (65 <=? n)%nat && (n <=? 90)%nat then ascii_of_nat (n + 32) else c.

Fixpoint lower (s : string) : string :=
  match s with
  | EmptyString => EmptyString
  | String c s' => String (lower_ascii c) (lower s')
  end.

(** [s.split('/')]: the pieces between separators, empty ones included. *)
Fixpoint split_slash (cur s : string) : list string :=
  match s with
  | EmptyString => [cur]
  | String c s' =>
      if Ascii.eqb c "/" then cur :: split_slash "" s'
      else split_slash (cur +:+ String c "") s'
  end.

(** [s.rfind(c)], with [None] for -1. *)
Fixpoint rfind (c : ascii) (s : string) : option nat :=
  match s with
  | EmptyString => None
  | String a s' =>
      match rfind c s' with
      | Some i => Some (S i)
      | None => if Ascii.eqb a c then Some 0%nat else None
      end
  end.

(** [s[i:]]. *)
Definition drop_string (i : nat) (s : string) : string :=
  substring i (String.length s - i) s.

(** [needle in hay]. *)
Fixpoint contains (needle hay : string) : bool :=
  String.prefix needle hay ||
  match hay with
  | EmptyString => false
  | String _ hay' => contains needle hay'
  end.

(** [f"{q[:100]}{'...' if len(q) > 100 else ''}"]. *)
Definition preview (q : string) : string :=
  substring 0 100 q +:+ (if (100 <? String.length q)%nat then "..." else "").

(** ** pathlib, POSIX flavour, as in CPython 3.12 *)
Module Path.

(** The parts of a relative or absolute path: empty pieces and [.] are
    dropped when the path is parsed. *)
Definition parts (path : string) : list string :=
  filter (λ p, p ≠ "" ∧ p ≠ ".") (split_slash "" path).

(** [PurePath.name]: the final component, if any. *)
Definition name (path : string) : string := List.last (parts path) "".

(** [PurePath.suffix]: the last dot and what follows it in the name,
    unless that dot is the first or the last character. *)
Definition suffix (path : string) : string :=
  let n := name path in
  match rfind "." n with
  | Some i =>
      if (0 <? i)%nat && (i <? String.length n - 1)%nat
      then drop_string i n else ""
  | None => ""
  end.

End Path.

(** ** The external loaders *)

Record World := mk_World
  { (** whether [import name] finds the module *)
    importable : string → bool;
    (** [pd.read_csv(path, **kw)] and [pd.read_json(path, **kw)] *)
    csv_file : string → gmap string pyval → outcome pyobj;
    json_file : string → gmap string pyval → outcome pyobj;
    (** the sheets of a workbook, in workbook order, parsed under [kw] *)
    excel_file :
      string → gmap string pyval → outcome (list (string * DataFrame));
    (** whether [sqlite3.connect(path)] succeeds *)
    sqlite_open : string → outcome unit;
    (** [pd.read_sql(sql, conn, **kw)] on a connection to the file *)
    sqlite_select : string → string → gmap string pyval → outcome pyobj;
    (** the names that the catalog query yields, in catalog order *)
    sqlite_catalog : string → outcome (list string);
    (** [pd.read_sql(sql, url, **kw)] on a connection string *)
    sql_server : string → string → gmap string pyval → outcome pyobj;
    (** [pandas_gbq.read_gbq(sql, project_id=project, **kw)], which reads
        its credentials from the environment *)
    bigquery :
      gmap string string → string → string → gmap string pyval →
      outcome pyobj }.

(** [pd.read_excel]'s own default for [sheet_name]: the first sheet. *)
Definition default_sheet_name : pyval := VInt 0.

(** How [pd.read_excel] interprets [sheet_name]: a string names a sheet, an
    integer is a position, [None] asks for all sheets as a dict. *)
Definition select_sheet (sheets : list (string * DataFrame))
    (sheet_name : pyval) : outcome pyobj :=
  match sheet_name with
  | VNone => Return (PyDict sheets)
  | VStr s =>
      match list_find (λ p, fst p = s) sheets with
      | Some (_, (_, df)) => Return (PyFrame df)
      | None => Raise (ValueError ("Worksheet named '" +:+ s +:+ "' not found"))
      end
  | VInt z =>
      let n := Z.of_nat (length sheets) in
      if (n <=? z)%Z then
        Raise (ValueError ("Worksheet index " +:+ pretty z +:+ " is invalid, "
                           +:+ pretty n +:+ " worksheets found"))
      else if (z <? - n)%Z then
        Raise (mk_exn "IndexError" "list index out of range")
      else
        match sheets !! Z.to_nat (if (z <? 0)%Z then n + z else z) with
        | Some (_, df) => Return (PyFrame df)
        | None => Raise (mk_exn "IndexError" "list index out of range")
        end
  end.

Module sqlite3.

Definition closed_error : exn :=
  mk_exn "ProgrammingError" "Cannot operate on a closed database.".

Definition set_connection (h : nat) (c : connection) (st : state) : state :=
  mk_state (stdout st) (<[h:=c]> (connections st)) (environ st) (issued st).

(** [Connection.close()]. *)
Definition close (h : nat) : M unit := λ st,
  match connections st !! h with
  | Some c => (Return tt, set_connection h
                 {| db_path := db_path c; is_open := false;
                    last_txn := last_txn c |} st)
  | None => (Return tt, st)
  end.

(** [Connection.__exit__]: commits when the block ended normally, rolls
    back when it raised, and lets the exception, if any, go on.  The
    connection stays open either way: in the words of the library
    reference, the context manager neither implicitly opens a new
    transaction nor closes the connection. *)
Definition __exit__ (h : nat) (exc : option exn) (st : state) : state :=
  match connections st !! h with
  | Some c =>
      if is_open c then
        set_connection h
          {| db_path := db_path c; is_open := true;
             last_txn := Some (match exc with
                              | Some _ => RolledBack
                              | None => Committed
                              end) |} st
      else st
  | None => st
  end.

End sqlite3.

(** ** The connector *)

Definition pymysql_missing : string :=
  "PyMySQL is required for MySQL connections. Install with: pip install pymysql".
Definition psycopg2_missing : string :=
  "psycopg2 is required for PostgreSQL connections. Install with: pip install psycopg2-binary".
Definition pandas_gbq_missing : string :=
  "pandas-gbq is required for BigQuery connections. Install with: pip install pandas-gbq".
Definition table_or_query_required : string :=
  "Either 'table' or 'query' parameter must be provided".
Definition query_or_table_id_required : string :=
  "Either 'query' or 'table_id' parameter must be provided".
Definition no_tables_found : string := "No tables found in SQLite database".
Definition credentials_variable : string := "GOOGLE_APPLICATION_CREDENTIALS".

(** [f"mysql+pymysql://{username}:{password}@{host}:{port}/{database}"]. *)
Definition mysql_url (username password host : string) (port : Z)
    (database : string) : string :=
  "mysql+pymysql://" +:+ username +:+ ":" +:+ password +:+ "@"
  +:+ host +:+ ":" +:+ pretty port +:+ "/" +:+ database.

(** [f"postgresql://{username}:{password}@{host}:{port}/{database}"]. *)
Definition postgresql_url (username password host : string) (port : Z)
    (database : string) : string :=
  "postgresql://" +:+ username +:+ ":" +:+ password +:+ "@"
  +:+ host +:+ ":" +:+ pretty port +:+ "/" +:+ database.

(** [Path(path).suffix.lower()]. *)
Definition extension (path : string) : string := lower (Path.suffix path).

Definition sqlite_extensions : list string := [".db"; ".sqlite"; ".sqlite3"].
Definition excel_extensions : list string := [".xlsx"; ".xls"].

Section Connector.

Context (w : World).

(** *** Invocations of the loaders, each leaving its entry in [issued] *)

Definition import_module (name : string) : M unit :=
  if importable w name then mret tt
  else raise (ModuleNotFoundError ("No module named '" +:+ name +:+ "'")).

Definition pd_read_csv (path : string) (kw : gmap string pyval) : M pyobj :=
  λ st, (csv_file w path kw, record (ReqCsv path kw) st).

Definition pd_read_json (path : string) (kw : gmap string pyval) : M pyobj :=
  λ st, (json_file w path kw, record (ReqJson path kw) st).

(** [pd.read_excel(path, sheet_name=sheet_name, **kw)]. *)
Definition excel_loader (path : string) (sheet_name : pyval)
    (kw : gmap string pyval) : outcome pyobj :=
  match excel_file w path kw with
  | Return sheets => select_sheet sheets sheet_name
  | Raise e => Raise e
  end.

Definition pd_read_excel (path : string) (sheet_name : pyval)
    (kw : gmap string pyval) : M pyobj := λ st,
  (excel_loader path sheet_name kw, record (ReqExcel path sheet_name kw) st).

(** [sqlite3.connect(path)]: a new open connection, named by its index. *)
Definition sqlite3_connect (path : string) : M nat := λ st,
  let st1 := record (ReqConnect path) st in
  match sqlite_open w path with
  | Return _ =>
      (Return (length (connections st1)),
       mk_state (stdout st1)
         (connections st1 ++
            [{| db_path := path; is_open := true; last_txn := None |}])
         (environ st1) (issued st1))
  | Raise e => (Raise e, st1)
  end.

(** A statement run on a connection: refused once the connection is closed. *)
Definition on_connection {A} (conn : nat) (r : request)
    (run : string → outcome A) : M A := λ st,
  (match connections st !! conn with
   | Some c => if is_open c then run (db_path c)
               else Raise sqlite3.closed_error
   | None => Raise sqlite3.closed_error
   end, record r st).

Definition pd_read_sql_conn (sql : string) (conn : nat)
    (kw : gmap string pyval) : M pyobj :=
  on_connection conn (ReqSelect conn sql kw)
    (λ db, sqlite_select w db sql kw).

(** [cursor.execute("SELECT name FROM sqlite_master WHERE type='table';")]
    followed by [[row[0] for row in cursor.fetchall()]]. *)
Definition fetch_table_names (conn : nat) : M (list string) :=
  on_connection conn (ReqCatalog conn) (λ db, sqlite_catalog w db).

Definition pd_read_sql_url (sql url : string) (kw : gmap string pyval)
    : M pyobj :=
  λ st, (sql_server w url sql kw, record (ReqSqlUrl url sql kw) st).

Definition pandas_gbq_read_gbq (sql project : string)
    (kw : gmap string pyval) : M pyobj :=
  λ st, (bigquery w (environ st) project sql kw,
         record (ReqGbq (environ st) project sql kw) st).

(** Leaving a [with conn:] block: [__exit__] sees how the block ended. *)
Definition leaving {A} (conn : nat) (block : M A) : M A := λ st,
  match block st with
  | (Return a, st') => (Return a, sqlite3.__exit__ conn None st')
  | (Raise e, st') => (Raise e, sqlite3.__exit__ conn (Some e) st')
  end.

(** [with sqlite3.connect(path) as conn: body conn]. *)
Definition with_connect {A} (path : string) (body : nat → M A) : M A :=
  conn ← sqlite3_connect path;
  leaving conn (body conn).

(** The two lines that end every successful read:
    the print of [df.shape] and [return df]. *)
Definition loaded (df : pyobj) : M pyobj :=
  shape ← lift (getattr_shape df);
  print (Success (fst shape) (snd shape));;
  mret df.

(** [except Exception as e: print(f"... {str(e)}"); raise]. *)
Definition reraise {A} (what : string) (e : exn) : M A :=
  print (Error (what +:+ ": " +:+ exn_msg e));;
  raise e.

(** *** File readers *)

Definition read_csv (path : string) (kwargs : gmap string pyval) : M pyobj :=
  try_except
    (print (Status ("Reading CSV file: " +:+ path));;
     df ← pd_read_csv path kwargs;
     loaded df)
    is_Exception (reraise "Error reading CSV file").

Definition read_excel (path : string) (sheet_name : pyval)
    (kwargs : gmap string pyval) : M pyobj :=
  try_except
    (print (Status ("Reading Excel file: " +:+ path));;
     (if truthy sheet_name
      then print (Status ("Sheet: " +:+ py_str sheet_name))
      else mret tt);;
     df ← pd_read_excel path sheet_name kwargs;
     loaded df)
    is_Exception (reraise "Error reading Excel file").

Definition read_json (path : string) (kwargs : gmap string pyval) : M pyobj :=
  try_except
    (print (Status ("Reading JSON file: " +:+ path));;
     df ← pd_read_json path kwargs;
     loaded df)
    is_Exception (reraise "Error reading JSON file").

(** *** SQLite *)

Definition read_sqlite_table (path : string) (table : pyval)
    (kwargs : gmap string pyval) : M pyobj :=
  try_except
    (print (Status ("Reading SQLite table '" +:+ py_str table
                    +:+ "' from: " +:+ path));;
     df ← with_connect path (λ conn,
            pd_read_sql_conn ("SELECT * FROM " +:+ py_str table) conn kwargs);
     loaded df)
    is_Exception (reraise "Error reading SQLite table").

Definition read_sqlite_query (path query : string)
    (kwargs : gmap string pyval) : M pyobj :=
  try_except
    (print (Status ("Executing SQLite query on: " +:+ path));;
     print (Status ("Query: " +:+ preview query));;
     df ← with_connect path (λ conn, pd_read_sql_conn query conn kwargs);
     loaded df)
    is_Exception (reraise "Error executing SQLite query").

Definition list_sqlite_tables (path : string) : M (list string) :=
  try_except
    (tables ← with_connect path (λ conn, fetch_table_names conn);
     print (Found tables);;
     mret tables)
    is_Exception (reraise "Error listing SQLite tables").

(** *** Networked sources *)

(** [try: import m / except ImportError: raise ImportError(msg)]. *)
Definition require (module msg : string) : M unit :=
  try_except (import_module module) is_ImportError
    (λ _, raise (ImportError msg)).

(** The text of a [str = None] parameter once it has tested true. *)
Definition str_of (o : option string) : string := default "" o.

Definition read_mysql (host database username password : string)
    (table query : option string) (port : Z)
    (kwargs : gmap string pyval) : M pyobj :=
  require "pymysql" pymysql_missing;;
  try_except
    (print (Status ("Connecting to MySQL: " +:+ host +:+ ":"
                    +:+ pretty port +:+ "/" +:+ database));;
     let connection_string :=
       mysql_url username password host port database in
     df ← (if given query then
             print (Status ("Executing query: " +:+ preview (str_of query)));;
             pd_read_sql_url (str_of query) connection_string kwargs
           else if given table then
             print (Status ("Reading table: " +:+ str_of table));;
             pd_read_sql_url ("SELECT * FROM " +:+ str_of table)
               connection_string kwargs
           else raise (ValueError table_or_query_required));
     loaded df)
    is_Exception (reraise "Error reading from MySQL").

Definition read_postgresql (host database username password : string)
    (table query : option string) (port : Z)
    (kwargs : gmap string pyval) : M pyobj :=
  require "psycopg2" psycopg2_missing;;
  try_except
    (print (Status ("Connecting to PostgreSQL: " +:+ host +:+ ":"
                    +:+ pretty port +:+ "/" +:+ database));;
     let connection_string :=
       postgresql_url username password host port database in
     df ← (if given query then
             print (Status ("Executing query: " +:+ preview (str_of query)));;
             pd_read_sql_url (str_of query) connection_string kwargs
           else if given table then
             print (Status ("Reading table: " +:+ str_of table));;
             pd_read_sql_url ("SELECT * FROM " +:+ str_of table)
               connection_string kwargs
           else raise (ValueError table_or_query_required));
     loaded df)
    is_Exception (reraise "Error reading from PostgreSQL").

Definition read_bigquery (project_id : string)
    (query table_id credentials_path : option string)
    (kwargs : gmap string pyval) : M pyobj :=
  require "pandas_gbq" pandas_gbq_missing;;
  try_except
    (print (Status ("Connecting to BigQuery project: " +:+ project_id));;
     (if given credentials_path then
        setenv credentials_variable (str_of credentials_path);;
        print (Status ("Using credentials: " +:+ str_of credentials_path))
      else mret tt);;
     df ← (if given query then
             print (Status ("Executing query: " +:+ preview (str_of query)));;
             pandas_gbq_read_gbq (str_of query) project_id kwargs
           else if given table_id then
             print (Status ("Reading table: " +:+ str_of table_id));;
             let query := "SELECT * FROM `" +:+ str_of table_id +:+ "`" in
             pandas_gbq_read_gbq query project_id kwargs
           else raise (ValueError query_or_table_id_required));
     loaded df)
    is_Exception (reraise "Error reading from BigQuery").

(** *** Dispatch on the extension *)

(** [self.read_excel(path, **kwargs)]: a [sheet_name] entry of the bag
    binds the parameter of that name, which otherwise takes its default
    [None]. *)
Definition read_excel_kw (path : string) (kwargs : gmap string pyval)
    : M pyobj :=
  read_excel path (default VNone (kwargs !! "sheet_name"))
    (delete "sheet_name" kwargs).

(** The SQLite branch of the dispatcher: list the tables, refuse a
    database without any, read the table named in the bag or else the
    first one. *)
Definition read_sqlite_auto (path : string) (kwargs : gmap string pyval)
    : M pyobj :=
  tables ← list_sqlite_tables path;
  match tables with
  | [] => raise (ValueError no_tables_found)
  | first :: _ =>
      match kwargs !! "table" with
      | Some table => read_sqlite_table path table (delete "table" kwargs)
      | None =>
          print (Warning ("Multiple tables found. Reading first table: "
                          +:+ first));;
          read_sqlite_table path (VStr first) kwargs
      end
  end.

Definition auto_detect_and_read (path : string)
    (kwargs : gmap string pyval) : M pyobj :=
  let extension := extension path in
  print (Status ("Auto-detecting file type: " +:+ extension));;
  if bool_decide (extension = ".csv") then
    read_csv path kwargs
  else if bool_decide (extension ∈ excel_extensions) then
    read_excel_kw path kwargs
  else if bool_decide (extension = ".json") then
    read_json path kwargs
  else if bool_decide (extension ∈ sqlite_extensions) then
    read_sqlite_auto path kwargs
  else
    raise (ValueError ("Unsupported file format: " +:+ extension)).

End Connector.

(** ** A concrete world, for running the connector *)
Module Demo.

Definition users : DataFrame :=
  {| columns := ["id"; "name"];
     rows := [[VInt 1; VStr "ada"]; [VInt 2; VStr "bob"]; [VInt 3; VStr "eve"]] |}.

Definition orders : DataFrame :=
  {| columns := ["id"; "user_id"; "total"];
     rows := [[VInt 10; VInt 1; VInt 250]] |}.

Definition not_found (path : string) : exn :=
  mk_exn "FileNotFoundError"
    ("[Errno 2] No such file or directory: '" +:+ path +:+ "'").

Definition no_such_table (sql : string) : exn :=
  mk_exn "DatabaseError" ("Execution failed on sql '" +:+ sql +:+ "'").

Definition unreachable : exn :=
  mk_exn "OperationalError" "Can't connect to MySQL server on 'db.local'".

Definition no_credentials : exn :=
  mk_exn "DefaultCredentialsError"
    "Could not automatically determine credentials.".

Definition select (sql : string) : outcome pyobj :=
  if bool_decide (sql = "SELECT * FROM users") then Return (PyFrame users)
  else if bool_decide (sql = "SELECT * FROM orders") then
    Return (PyFrame orders)
  else Raise (no_such_table sql).

(** Files [data.csv], [data.json], [book.xlsx] (two sheets), [app.db]
    (tables users and orders) and [empty.db] exist; the SQL server at
    [db.local] answers; BigQuery answers when the credentials variable
    points at [/keys/sa.json].  [drivers] says whether the optional
    driver modules are installed. *)
Definition world (drivers : bool) : World :=
  {| importable := λ _, drivers;
     csv_file := λ path _,
       if bool_decide (path ∈ ["data.csv"; "DATA.CSV"])
       then Return (PyFrame users) else Raise (not_found path);
     json_file := λ path _,
       if bool_decide (path = "data.json")
       then Return (PyFrame orders) else Raise (not_found path);
     excel_file := λ path _,
       if bool_decide (path = "book.xlsx")
       then Return [("Sheet1", users); ("Sheet2", orders)]
       else Raise (not_found path);
     sqlite_open := λ _, Return tt;
     sqlite_select := λ db sql _,
       if bool_decide (db = "app.db") then select sql
       else Raise (no_such_table sql);
     sqlite_catalog := λ db,
       if bool_decide (db = "app.db") then Return ["users"; "orders"]
       else Return [];
     sql_server := λ url sql _,
       if contains "@db.local:" url then select sql else Raise unreachable;
     bigquery := λ env _ sql _,
       if bool_decide (env !! credentials_variable = Some "/keys/sa.json")
       then Return (PyFrame orders) else Raise no_credentials |}.

End Demo.

(** The environment [read_bigquery] makes its request in: the caller's,
    with the credentials variable set when a path was given. *)
Definition exported (credentials_path : option string)
    (env : gmap string string) : gmap string string :=
  if given credentials_path
  then <[credentials_variable := default "" credentials_path]> env
  else env.

(** [m], started in [st], raises [e], having made the requests [reqs] and
    no others. *)
Definition surfaces {A} (m : M A) (st : state) (e : exn)
    (reqs : list request) : Prop :=
  fst (m st) = Raise e ∧ issued (snd (m st)) = (issued st ++ reqs)%list.

(** How a [with] block ended, as [__exit__] records it. *)
Definition ending {A} (o : outcome A) : txn_end :=
  match o with
  | Return _ => Committed
  | Raise _ => RolledBack
  end.

(** A call that went from [st] to [st'] left its connection open: if the
    database could be opened, the open connections of [st'] are those of
    [st] and one more, on [path]. *)
Definition left_open (w : World) (path : string) (st st' : state) : Prop :=
  match sqlite_open w path with
  | Return _ =>
      ∃ t, open_handles st'
           = (open_handles st
              ++ [{| db_path := path; is_open := true; last_txn := Some t |}])%list
  | Raise _ => open_handles st' = open_handles st
  end.

(** The state in which the chosen reader starts: the caller's, with the
    line that announces the extension printed. *)
Definition announced (path : string) (st : state) : state :=
  snd (print (Status ("Auto-detecting file type: " +:+ extension path)) st).


(** ** What a call leaves alone *)

(** [m] keeps [R]: from whatever state it starts, it ends in a state that
    [R] relates to it. *)
Definition keeps (R : state → state → Prop) {A} (m : M A) : Prop :=
  ∀ st, R st (snd (m st)).

(** Nothing printed, opened or requested before is altered or removed: the
    three lists only get longer. *)
Definition appended (st st' : state) : Prop :=
  stdout st `prefix_of` stdout st'
  ∧ connections st `prefix_of` connections st'
  ∧ issued st `prefix_of` issued st'.

Definition same_environ (st st' : state) : Prop := environ st' = environ st.

Definition same_connections (st st' : state) : Prop :=
  connections st' = connections st.

(** At most [n] requests were made on the way from [st] to [st']. *)
Definition requests_within (n : nat) (st st' : state) : Prop :=
  ∃ reqs, issued st' = (issued st ++ reqs)%list ∧ (length reqs ≤ n)%nat.

(** [m], started in [st], returns [a], and the last line it prints is
    [l]. *)
Definition delivers {A} (m : M A) (st : state) (a : A) (l : status_line)
    : Prop :=
  fst (m st) = Return a ∧ last (stdout (snd (m st))) = Some l.

(** The statement a networked reader runs for its [query] and [table]
    arguments: the query when it tests true, else the [SELECT *] that
    [select] builds from a table that tests true. *)
Definition chosen (query table : option string) (select : string → string)
    (sql : string) : Prop :=
  given query = true ∧ sql = str_of query
  ∨ given query = false ∧ given table = true ∧ sql = select (str_of table).



(** * Properties *)

(** ** Running monadic code *)

Lemma bind_run {A B} (m : M A) (f : A → M B) (st : state) :
  (m ≫= f) st =
  match m st with
  | (Return a, st') => f a st'
  | (Raise e, st') => (Raise e, st')
  end.
Proof. reflexivity. Qed.

Lemma putenv_error_credentials (v : string) :
  putenv_error credentials_variable v
  = if has_nul v then Some (ValueError "embedded null byte") else None.
Proof. reflexivity. Qed.

(** After [run]: the assignment of the credentials variable, for a value
    known to hold no NUL character. *)
Ltac export H :=
  cbv [str_of default id] in H; unfold id;
  rewrite ?putenv_error_credentials, ?H;
  cbn [fst snd stdout connections environ issued].

(** After [run]: the assignment of a variable, whether it raises or not. *)
Ltac assignment :=
  try match goal with
    | |- context [putenv_error ?k ?v] => destruct (putenv_error k v) as [?|]
    end;
  cbn [fst snd stdout connections environ issued].

Ltac run :=
  cbv [try_except reraise loaded lift print raise record setenv
       mbind M_bind mret M_ret
       pd_read_csv pd_read_json pd_read_excel pd_read_sql_url
       pandas_gbq_read_gbq str_of default];
  cbn [fst snd stdout connections environ issued].

(** ** The optional drivers *)

Lemma require_missing w module msg st :
  importable w module = false →
  require w module msg st = (Raise (ImportError msg), st).
Proof.
  intros Hm. unfold require, import_module, try_except. rewrite Hm.
  reflexivity.
Qed.

Lemma require_present w module msg st :
  importable w module = true →
  require w module msg st = (Return tt, st).
Proof.
  intros Hm. unfold require, import_module, try_except. rewrite Hm.
  reflexivity.
Qed.

Lemma read_mysql_missing w host database username password table query port
    kw st :
  importable w "pymysql" = false →
  read_mysql w host database username password table query port kw st
  = (Raise (ImportError pymysql_missing), st).
Proof.
  intros Hm. unfold read_mysql. rewrite bind_run, require_missing by done.
  reflexivity.
Qed.

Lemma read_postgresql_missing w host database username password table query
    port kw st :
  importable w "psycopg2" = false →
  read_postgresql w host database username password table query port kw st
  = (Raise (ImportError psycopg2_missing), st).
Proof.
  intros Hm. unfold read_postgresql. rewrite bind_run, require_missing by done.
  reflexivity.
Qed.

Lemma read_bigquery_missing w project query table_id credentials_path kw st :
  importable w "pandas_gbq" = false →
  read_bigquery w project query table_id credentials_path kw st
  = (Raise (ImportError pandas_gbq_missing), st).
Proof.
  intros Hm. unfold read_bigquery. rewrite bind_run, require_missing by done.
  reflexivity.
Qed.

(** C10.  The driver check comes first.  Without the driver module each of
    the three networked readers raises the [ImportError] and leaves the
    state as it was, also when neither a table nor a query is given; hence
    a [ValueError], and the parameter error in particular, can only come
    out of a call made with the driver present. *)
Theorem driver_check_precedes_validation w host database username password
    port project credentials_path kw st :
  (importable w "pymysql" = false →
   read_mysql w host database username password None None port kw st
   = (Raise (ImportError pymysql_missing), st))
  ∧ (importable w "psycopg2" = false →
     read_postgresql w host database username password None None port kw st
     = (Raise (ImportError psycopg2_missing), st))
  ∧ (importable w "pandas_gbq" = false →
     read_bigquery w project None None credentials_path kw st
     = (Raise (ImportError pandas_gbq_missing), st))
  ∧ (∀ table query e,
       fst (read_mysql w host database username password table query port
              kw st) = Raise e →
       exn_class e = "ValueError" → importable w "pymysql" = true)
  ∧ (∀ table query e,
       fst (read_postgresql w host database username password table query
              port kw st) = Raise e →
       exn_class e = "ValueError" → importable w "psycopg2" = true)
  ∧ (∀ query table_id e,
       fst (read_bigquery w project query table_id credentials_path kw st)
       = Raise e →
       exn_class e = "ValueError" → importable w "pandas_gbq" = true).
Proof.
  split; [apply read_mysql_missing |].
  split; [apply read_postgresql_missing |].
  split; [apply read_bigquery_missing |].
  repeat split; intros a b e Hr Hc.
  - destruct (importable w "pymysql") eqn:Hm; [done |].
    rewrite read_mysql_missing in Hr by done. cbn in Hr.
    injection Hr as <-. discriminate.
  - destruct (importable w "psycopg2") eqn:Hm; [done |].
    rewrite read_postgresql_missing in Hr by done. cbn in Hr.
    injection Hr as <-. discriminate.
  - destruct (importable w "pandas_gbq") eqn:Hm; [done |].
    rewrite read_bigquery_missing in Hr by done. cbn in Hr.
    injection Hr as <-. discriminate.
Qed.

Lemma driver_check_precedes_validation_witness :
  let w := Demo.world false in
  let wd := Demo.world true in
  (importable w "pymysql" = false
   ∧ importable w "psycopg2" = false
   ∧ importable w "pandas_gbq" = false
   ∧ fst (read_mysql wd "db.local" "shop" "u" "p" None None 3306 ∅ initial)
     = Raise (ValueError table_or_query_required))
  ∧ read_mysql w "db.local" "shop" "u" "p" None None 3306 ∅ initial
    = (Raise (ImportError pymysql_missing), initial)
  ∧ read_postgresql w "db.local" "shop" "u" "p" None None 5432 ∅ initial
    = (Raise (ImportError psycopg2_missing), initial)
  ∧ read_bigquery w "proj" None None None ∅ initial
    = (Raise (ImportError pandas_gbq_missing), initial)
  ∧ importable wd "pymysql" = true.
Proof.
  intros w wd.
  pose proof (driver_check_precedes_validation w "db.local" "shop" "u" "p"
                3306 "proj" None ∅ initial) as (Hm & _ & Hb & _).
  pose proof (driver_check_precedes_validation w "db.local" "shop" "u" "p"
                5432 "proj" None ∅ initial) as (_ & Hp & _).
  pose proof (driver_check_precedes_validation wd "db.local" "shop" "u" "p"
                3306 "proj" None ∅ initial) as (_ & _ & _ & Hv & _).
  split; [repeat split |].
  split; [apply Hm; reflexivity |].
  split; [apply Hp; reflexivity |].
  split; [apply Hb; reflexivity |].
  apply (Hv None None (ValueError table_or_query_required)); reflexivity.
Defined.

(** ** Neither table nor query *)

Lemma read_mysql_unconfigured w host database username password port kw st :
  importable w "pymysql" = true →
  fst (read_mysql w host database username password None None port kw st)
  = Raise (ValueError table_or_query_required).
Proof.
  intros Hm. unfold read_mysql. rewrite bind_run, require_present by done.
  reflexivity.
Qed.

Lemma read_postgresql_unconfigured w host database username password port kw
    st :
  importable w "psycopg2" = true →
  fst (read_postgresql w host database username password None None port kw st)
  = Raise (ValueError table_or_query_required).
Proof.
  intros Hm. unfold read_postgresql. rewrite bind_run, require_present by done.
  reflexivity.
Qed.

Lemma read_mysql_unconfigured_silent w host database username password port
    kw st :
  issued (snd (read_mysql w host database username password None None port
                 kw st)) = issued st.
Proof.
  unfold read_mysql. rewrite bind_run.
  destruct (importable w "pymysql") eqn:Hm.
  - rewrite require_present by done. reflexivity.
  - rewrite require_missing by done. reflexivity.
Qed.

Lemma read_postgresql_unconfigured_silent w host database username password
    port kw st :
  issued (snd (read_postgresql w host database username password None None
                 port kw st)) = issued st.
Proof.
  unfold read_postgresql. rewrite bind_run.
  destruct (importable w "psycopg2") eqn:Hm.
  - rewrite require_present by done. reflexivity.
  - rewrite require_missing by done. reflexivity.
Qed.

(** C3, as the code has it.  With the driver present, [read_mysql] and
    [read_postgresql] called with [table=None] and [query=None] raise the
    [ValueError] that asks for one of the two; and whether the driver is
    present or not, such a call reaches no loader: the log of requests is
    the one the call started with. *)
Theorem missing_table_and_query_rejected w host database username password
    port kw st :
  (importable w "pymysql" = true →
   fst (read_mysql w host database username password None None port kw st)
   = Raise (ValueError table_or_query_required))
  ∧ (importable w "psycopg2" = true →
     fst (read_postgresql w host database username password None None port
            kw st)
     = Raise (ValueError table_or_query_required))
  ∧ issued (snd (read_mysql w host database username password None None
                   port kw st)) = issued st
  ∧ issued (snd (read_postgresql w host database username password None
                   None port kw st)) = issued st.
Proof.
  split; [apply read_mysql_unconfigured |].
  split; [apply read_postgresql_unconfigured |].
  split; [apply read_mysql_unconfigured_silent |].
  apply read_postgresql_unconfigured_silent.
Qed.

Lemma missing_table_and_query_rejected_witness :
  let w := Demo.world true in
  importable w "pymysql" = true
  ∧ importable w "psycopg2" = true
  ∧ fst (read_mysql w "db.local" "shop" "u" "p" None None 3306 ∅ initial)
    = Raise (ValueError table_or_query_required)
  ∧ fst (read_postgresql w "db.local" "shop" "u" "p" None None 3306 ∅ initial)
    = Raise (ValueError table_or_query_required).
Proof.
  intros w.
  pose proof (missing_table_and_query_rejected w "db.local" "shop" "u" "p"
                3306 ∅ initial) as (Hm & Hp & _).
  split; [reflexivity |]. split; [reflexivity |].
  split; [apply Hm | apply Hp]; reflexivity.
Defined.

(** C3, as the spec words it, fails: where the MySQL module is not
    installed, the call with neither table nor query raises the
    [ImportError] of the driver check, not the parameter error. *)
Lemma read_mysql_unconfigured_without_driver :
  ¬ (∀ w host database username password port kw st,
       fst (read_mysql w host database username password None None port kw st)
       = Raise (ValueError table_or_query_required)).
Proof.
  intros H.
  specialize (H (Demo.world false) "db.local" "shop" "u" "p" 3306%Z ∅ initial).
  vm_compute in H. discriminate H.
Qed.

(** ** Query and table together *)

Lemma given_nonempty (q : string) : q ≠ "" → given (Some q) = true.
Proof.
  intros Hq. unfold given. destruct (String.eqb_spec q ""); done.
Qed.

(** Case analysis on what a loader returned and on how the read ended. *)
Ltac outcomes :=
  repeat match goal with
    | |- context [match ?o with Return _ => _ | Raise _ => _ end] =>
        destruct o eqn:?; cbn [fst snd stdout connections environ issued]
    | |- context [if is_Exception ?e then _ else _] =>
        destruct (is_Exception e);
        cbn [fst snd stdout connections environ issued]
    end.

Lemma read_mysql_query_only w host database username password t q port kw st :
  q ≠ "" →
  read_mysql w host database username password (Some t) (Some q) port kw st
  = read_mysql w host database username password None (Some q) port kw st.
Proof.
  intros Hq. unfold read_mysql. rewrite (given_nonempty q Hq). reflexivity.
Qed.

Lemma read_postgresql_query_only w host database username password t q port
    kw st :
  q ≠ "" →
  read_postgresql w host database username password (Some t) (Some q) port
    kw st
  = read_postgresql w host database username password None (Some q) port kw st.
Proof.
  intros Hq. unfold read_postgresql. rewrite (given_nonempty q Hq).
  reflexivity.
Qed.

Lemma read_bigquery_query_only w project t q cp kw st :
  q ≠ "" →
  read_bigquery w project (Some q) (Some t) cp kw st
  = read_bigquery w project (Some q) None cp kw st.
Proof.
  intros Hq. unfold read_bigquery. rewrite (given_nonempty q Hq). reflexivity.
Qed.

Lemma read_mysql_issues_query w host database username password table q port
    kw st :
  q ≠ "" → importable w "pymysql" = true →
  issued (snd (read_mysql w host database username password table (Some q)
                 port kw st))
  = (issued st
     ++ [ReqSqlUrl (mysql_url username password host port database) q kw])%list.
Proof.
  intros Hq Hm. unfold read_mysql.
  rewrite bind_run, require_present, (given_nonempty q Hq) by done.
  run. outcomes; reflexivity.
Qed.

Lemma read_postgresql_issues_query w host database username password table q
    port kw st :
  q ≠ "" → importable w "psycopg2" = true →
  issued (snd (read_postgresql w host database username password table
                 (Some q) port kw st))
  = (issued st
     ++ [ReqSqlUrl (postgresql_url username password host port database) q kw])%list.
Proof.
  intros Hq Hm. unfold read_postgresql.
  rewrite bind_run, require_present, (given_nonempty q Hq) by done.
  run. outcomes; reflexivity.
Qed.

Lemma read_bigquery_issues_query w project q table_id cp kw st :
  q ≠ "" → importable w "pandas_gbq" = true →
  has_nul (str_of cp) = false →
  issued (snd (read_bigquery w project (Some q) table_id cp kw st))
  = (issued st ++ [ReqGbq (exported cp (environ st)) project q kw])%list.
Proof.
  intros Hq Hm Hn. unfold read_bigquery, exported.
  rewrite bind_run, require_present, (given_nonempty q Hq) by done.
  run. export Hn.
  destruct (given cp); cbn [fst snd stdout connections environ issued];
    outcomes; reflexivity.
Qed.

(** C4, as the code has it.  A query that is not the empty string wins over
    the table: with it, [read_mysql], [read_postgresql] and [read_bigquery]
    do exactly what they do when no table (or table id) is passed at all,
    and where the driver is present the one request they make carries the
    text of the query ([read_bigquery] gets that far when the credentials
    path, if there is one, holds no NUL character and so can be put in
    the environment). *)
Theorem nonempty_query_takes_precedence w host database username password
    project t q credentials_path port kw st :
  q ≠ "" →
  (read_mysql w host database username password (Some t) (Some q) port kw st
   = read_mysql w host database username password None (Some q) port kw st
   ∧ (importable w "pymysql" = true →
      issued (snd (read_mysql w host database username password (Some t)
                     (Some q) port kw st))
      = (issued st
         ++ [ReqSqlUrl (mysql_url username password host port database)
               q kw])%list))
  ∧ (read_postgresql w host database username password (Some t) (Some q)
       port kw st
     = read_postgresql w host database username password None (Some q) port
         kw st
     ∧ (importable w "psycopg2" = true →
        issued (snd (read_postgresql w host database username password
                       (Some t) (Some q) port kw st))
        = (issued st
           ++ [ReqSqlUrl (postgresql_url username password host port database)
                 q kw])%list))
  ∧ (read_bigquery w project (Some q) (Some t) credentials_path kw st
     = read_bigquery w project (Some q) None credentials_path kw st
     ∧ (importable w "pandas_gbq" = true →
        has_nul (str_of credentials_path) = false →
        issued (snd (read_bigquery w project (Some q) (Some t)
                       credentials_path kw st))
        = (issued st
           ++ [ReqGbq (exported credentials_path (environ st)) project
                 q kw])%list)).
Proof.
  intros Hq. repeat split.
  - by apply read_mysql_query_only.
  - by apply read_mysql_issues_query.
  - by apply read_postgresql_query_only.
  - by apply read_postgresql_issues_query.
  - by apply read_bigquery_query_only.
  - by apply read_bigquery_issues_query.
Qed.

Lemma nonempty_query_takes_precedence_witness :
  let w := Demo.world true in
  "SELECT * FROM orders" ≠ ""
  ∧ read_mysql w "db.local" "shop" "u" "p" (Some "users")
      (Some "SELECT * FROM orders") 3306 ∅ initial
    = read_mysql w "db.local" "shop" "u" "p" None
        (Some "SELECT * FROM orders") 3306 ∅ initial
  ∧ issued (snd (read_mysql w "db.local" "shop" "u" "p" (Some "users")
                   (Some "SELECT * FROM orders") 3306 ∅ initial))
    = [ReqSqlUrl "mysql+pymysql://u:p@db.local:3306/shop"
         "SELECT * FROM orders" ∅].
Proof.
  intros w.
  assert (Hq : "SELECT * FROM orders" ≠ "") by discriminate.
  pose proof (nonempty_query_takes_precedence w "db.local" "shop" "u" "p"
                "proj" "users" "SELECT * FROM orders" None 3306 ∅ initial Hq)
    as ((Hsame & Hreq) & _).
  split; [exact Hq |]. split; [exact Hsame |].
  rewrite Hreq by reflexivity. reflexivity.
Defined.

(** C4, as the spec words it, fails for the empty query: [query=""] is
    passed, yet the request that goes out is the [SELECT *] on the table,
    and the call with the table differs from the call without it. *)
Lemma empty_query_yields_to_table :
  ¬ (∀ w host database username password t q port kw st,
       importable w "pymysql" = true →
       issued (snd (read_mysql w host database username password (Some t)
                      (Some q) port kw st))
       = (issued st
          ++ [ReqSqlUrl (mysql_url username password host port database)
                q kw])%list)
  ∧ ¬ (∀ w host database username password t q port kw st,
         fst (read_mysql w host database username password (Some t) (Some q)
                port kw st)
         = fst (read_mysql w host database username password None (Some q)
                  port kw st)).
Proof.
  split; intros H.
  - specialize (H (Demo.world true) "db.local" "shop" "u" "p" "users" ""
                  3306%Z ∅ initial eq_refl).
    vm_compute in H. discriminate H.
  - specialize (H (Demo.world true) "db.local" "shop" "u" "p" "users" ""
                  3306%Z ∅ initial).
    vm_compute in H. discriminate H.
Qed.

(** ** The credentials variable *)

Lemma read_bigquery_environ w project query table_id cp kw st :
  cp ≠ "" → has_nul cp = false → importable w "pandas_gbq" = true →
  environ (snd (read_bigquery w project query table_id (Some cp) kw st))
  = <[credentials_variable := cp]> (environ st).
Proof.
  intros Hc Hn Hm. unfold read_bigquery.
  rewrite bind_run, require_present, (given_nonempty cp Hc) by done.
  run. export Hn. destruct (given query), (given table_id);
    cbn [fst snd stdout connections environ issued]; outcomes; reflexivity.
Qed.

Lemma read_bigquery_requests w project query table_id cp kw st :
  cp ≠ "" →
  ∃ reqs,
    issued (snd (read_bigquery w project query table_id (Some cp) kw st))
    = (issued st ++ reqs)%list
    ∧ Forall (λ r, ∃ sql,
                r = ReqGbq (<[credentials_variable := cp]> (environ st))
                      project sql kw) reqs.
Proof.
  intros Hc. unfold read_bigquery. rewrite bind_run.
  destruct (importable w "pandas_gbq") eqn:Hm.
  - rewrite require_present, (given_nonempty cp Hc) by done. run.
    unfold id. rewrite putenv_error_credentials.
    destruct (has_nul cp).
    { exists []. split; [| constructor].
      rewrite app_nil_r. cbn [fst snd stdout connections environ issued].
      outcomes; reflexivity. }
    destruct (given query); [| destruct (given table_id)];
      cbn [fst snd stdout connections environ issued].
    + eexists [_]. split; [outcomes; reflexivity |].
      repeat constructor. eauto.
    + eexists [_]. split; [outcomes; reflexivity |].
      repeat constructor. eauto.
    + exists []. split; [| constructor].
      rewrite app_nil_r. outcomes; reflexivity.
  - rewrite require_missing by done. exists [].
    split; [by rewrite app_nil_r | constructor].
Qed.

(** C8, as the code has it.  When [credentials_path] is a non-empty string
    that the environment can hold (no NUL character in it) and the BigQuery
    module is present, [read_bigquery] leaves the credentials variable of
    the process environment set to that path, however the call ends and
    whatever else it was given; and every request the call makes (with or
    without the module there is at most the one query) is made in an
    environment in which the variable is already set. *)
Theorem credentials_exported w project query table_id cp kw st :
  cp ≠ "" → has_nul cp = false →
  (importable w "pandas_gbq" = true →
   environ (snd (read_bigquery w project query table_id (Some cp) kw st))
   = <[credentials_variable := cp]> (environ st))
  ∧ ∃ reqs,
      issued (snd (read_bigquery w project query table_id (Some cp) kw st))
      = (issued st ++ reqs)%list
      ∧ Forall (λ r, ∃ sql,
                  r = ReqGbq (<[credentials_variable := cp]> (environ st))
                        project sql kw) reqs.
Proof.
  intros Hc Hn. split.
  - intros Hm. by apply read_bigquery_environ.
  - by apply read_bigquery_requests.
Qed.

Lemma credentials_exported_witness :
  let w := Demo.world true in
  let st' := snd (read_bigquery w "proj" (Some "SELECT 1") None
                    (Some "/keys/sa.json") ∅ initial) in
  "/keys/sa.json" ≠ ""
  ∧ has_nul "/keys/sa.json" = false
  ∧ importable w "pandas_gbq" = true
  ∧ environ st' !! credentials_variable = Some "/keys/sa.json".
Proof.
  intros w st'.
  assert (Hc : "/keys/sa.json" ≠ "") by discriminate.
  pose proof (credentials_exported w "proj" (Some "SELECT 1") None
                "/keys/sa.json" ∅ initial Hc eq_refl) as (Henv & _).
  split; [exact Hc |]. split; [reflexivity |]. split; [reflexivity |].
  subst st'. rewrite Henv by reflexivity. apply lookup_insert_eq.
Defined.

(** C8, as the spec words it, fails: an empty [credentials_path] is passed
    and the query goes out, yet the variable is not set; where the BigQuery
    module is missing the call ends before the assignment; and a path with
    a NUL character in it makes the assignment itself raise, so that the
    variable is not set and no query goes out. *)
Lemma empty_credentials_path_not_exported :
  ¬ (∀ w project q cp kw st,
       importable w "pandas_gbq" = true →
       environ (snd (read_bigquery w project (Some q) None (Some cp) kw st))
         !! credentials_variable = Some cp)
  ∧ environ (snd (read_bigquery (Demo.world false) "proj" (Some "SELECT 1")
                    None (Some "/keys/sa.json") ∅ initial))
      !! credentials_variable = None
  ∧ (let run := read_bigquery (Demo.world true) "proj" (Some "SELECT 1") None
                  (Some ("/keys/" +:+ String Ascii.zero "sa.json")) ∅ initial
     in
     fst run = Raise (ValueError "embedded null byte")
     ∧ environ (snd run) !! credentials_variable = None
     ∧ issued (snd run) = []).
Proof.
  split; [| split].
  - intros H.
    specialize (H (Demo.world true) "proj" "SELECT 1" "" ∅ initial eq_refl).
    vm_compute in H. discriminate H.
  - reflexivity.
  - repeat split.
Qed.

(** ** SQLite connections *)

Lemma exit_fresh (st : state) (path : string) (exc : option exn) out reqs :
  sqlite3.__exit__ (length (connections st)) exc
    (mk_state out
       (connections st
        ++ [{| db_path := path; is_open := true; last_txn := None |}])
       (environ st) reqs)
  = mk_state out
      (connections st
       ++ [{| db_path := path; is_open := true;
              last_txn := Some (match exc with
                                | Some _ => RolledBack
                                | None => Committed
                                end) |}])
      (environ st) reqs.
Proof.
  unfold sqlite3.__exit__, sqlite3.set_connection.
  cbn [stdout connections environ issued].
  rewrite list_lookup_middle by done. cbn [is_open db_path].
  rewrite insert_app_r_alt by done. rewrite Nat.sub_diag. reflexivity.
Qed.

(** A [with sqlite3.connect(path)] block that runs one statement on its
    connection: the statement sees the database at [path]; afterwards the
    connection is in the table, committed or rolled back, and open. *)
Lemma with_connect_run {A} w path (r : nat → request)
    (run : string → outcome A) st :
  with_connect w path (λ conn, on_connection conn (r conn) run) st
  = match sqlite_open w path with
    | Return _ =>
        (run path,
         mk_state (stdout st)
           (connections st
            ++ [{| db_path := path; is_open := true;
                   last_txn := Some (ending (run path)) |}])
           (environ st)
           (issued st ++ [ReqConnect path; r (length (connections st))]))
    | Raise e => (Raise e, record (ReqConnect path) st)
    end.
Proof.
  unfold with_connect, sqlite3_connect. rewrite bind_run.
  destruct (sqlite_open w path) as [[]|e]; [| reflexivity].
  unfold leaving, on_connection, record.
  cbn [stdout connections environ issued].
  rewrite list_lookup_middle by done. cbn [is_open db_path].
  rewrite <- app_assoc. cbn [app].
  destruct (run path) as [a|e]; cbn [ending]; by rewrite exit_fresh.
Qed.

Lemma with_connect_select w path sql kw st :
  with_connect w path (λ conn, pd_read_sql_conn w sql conn kw) st
  = match sqlite_open w path with
    | Return _ =>
        (sqlite_select w path sql kw,
         mk_state (stdout st)
           (connections st
            ++ [{| db_path := path; is_open := true;
                   last_txn := Some (ending (sqlite_select w path sql kw)) |}])
           (environ st)
           (issued st
            ++ [ReqConnect path; ReqSelect (length (connections st)) sql kw]))
    | Raise e => (Raise e, record (ReqConnect path) st)
    end.
Proof.
  exact (with_connect_run w path (λ conn, ReqSelect conn sql kw)
           (λ db, sqlite_select w db sql kw) st).
Qed.

Lemma with_connect_catalog w path st :
  with_connect w path (λ conn, fetch_table_names w conn) st
  = match sqlite_open w path with
    | Return _ =>
        (sqlite_catalog w path,
         mk_state (stdout st)
           (connections st
            ++ [{| db_path := path; is_open := true;
                   last_txn := Some (ending (sqlite_catalog w path)) |}])
           (environ st)
           (issued st
            ++ [ReqConnect path; ReqCatalog (length (connections st))]))
    | Raise e => (Raise e, record (ReqConnect path) st)
    end.
Proof.
  exact (with_connect_run w path (λ conn, ReqCatalog conn)
           (λ db, sqlite_catalog w db) st).
Qed.

Lemma read_sqlite_table_left_open w path table kw st :
  left_open w path st (snd (read_sqlite_table w path table kw st)).
Proof.
  unfold left_open, read_sqlite_table, try_except.
  rewrite bind_run. cbn [print]. rewrite bind_run, with_connect_select.
  destruct (sqlite_open w path) as [[]|e].
  - exists (ending (sqlite_select w path ("SELECT * FROM " +:+ py_str table) kw)).
    run. unfold open_handles. outcomes;
      cbn [connections]; rewrite filter_app; reflexivity.
  - run. outcomes; reflexivity.
Qed.

Lemma read_sqlite_query_left_open w path query kw st :
  left_open w path st (snd (read_sqlite_query w path query kw st)).
Proof.
  unfold left_open, read_sqlite_query, try_except.
  rewrite bind_run. cbn [print]. rewrite bind_run. cbn [print].
  rewrite bind_run, with_connect_select.
  destruct (sqlite_open w path) as [[]|e].
  - exists (ending (sqlite_select w path query kw)).
    run. unfold open_handles. outcomes;
      cbn [connections]; rewrite filter_app; reflexivity.
  - run. outcomes; reflexivity.
Qed.

Lemma list_sqlite_tables_left_open w path st :
  left_open w path st (snd (list_sqlite_tables w path st)).
Proof.
  unfold left_open, list_sqlite_tables, try_except.
  rewrite bind_run, with_connect_catalog.
  destruct (sqlite_open w path) as [[]|e].
  - exists (ending (sqlite_catalog w path)).
    run. unfold open_handles. outcomes;
      cbn [connections]; rewrite filter_app; reflexivity.
  - run. outcomes; reflexivity.
Qed.

(** C1 does not hold of the code.  [with sqlite3.connect(path) as conn]
    ends the transaction and nothing more: no reader ever calls [close].
    Whenever the database can be opened, [read_sqlite_table],
    [read_sqlite_query] and [list_sqlite_tables] each end, by return or by
    raise, with one open connection more than they started with. *)
Theorem sqlite_connection_left_open w path table query kw st :
  left_open w path st (snd (read_sqlite_table w path table kw st))
  ∧ left_open w path st (snd (read_sqlite_query w path query kw st))
  ∧ left_open w path st (snd (list_sqlite_tables w path st)).
Proof.
  split; [apply read_sqlite_table_left_open |].
  split; [apply read_sqlite_query_left_open |].
  apply list_sqlite_tables_left_open.
Qed.

(** A query on a table that does not exist: the error comes back, and the
    connection that was opened for it is still open, rolled back. *)
Example failing_query_leaves_handle :
  read_sqlite_query (Demo.world true) "app.db" "SELECT * FROM missing" ∅
    initial
  = (Raise (Demo.no_such_table "SELECT * FROM missing"),
     mk_state
       [Status "Executing SQLite query on: app.db";
        Status "Query: SELECT * FROM missing";
        Error ("Error executing SQLite query: "
               +:+ exn_msg (Demo.no_such_table "SELECT * FROM missing"))]
       [{| db_path := "app.db"; is_open := true;
           last_txn := Some RolledBack |}]
       ∅
       [ReqConnect "app.db"; ReqSelect 0 "SELECT * FROM missing" ∅]).
Proof. reflexivity. Qed.

(** ** The default sheet *)

Lemma select_first_sheet name df rest :
  select_sheet ((name, df) :: rest) default_sheet_name = Return (PyFrame df).
Proof.
  unfold select_sheet, default_sheet_name.
  destruct (Z.leb_spec (Z.of_nat (length ((name, df) :: rest))) 0) as [H|H].
  - cbn [length] in H. lia.
  - destruct (Z.ltb_spec 0 (- Z.of_nat (length ((name, df) :: rest))))
      as [H'|H']; [lia |].
    reflexivity.
Qed.

Lemma read_excel_all_sheets w path kw st :
  fst (read_excel w path VNone kw st)
  = match excel_file w path kw with
    | Return _ =>
        Raise (AttributeError "'dict' object has no attribute 'shape'")
    | Raise e => Raise e
    end.
Proof.
  unfold read_excel. run. cbn [truthy]. unfold excel_loader.
  destruct (excel_file w path kw) as [sheets|e]; cbn [select_sheet].
  - reflexivity.
  - destruct (is_Exception e); reflexivity.
Qed.

(** C2 does not hold of the code.  [read_excel] hands its own default,
    [None], to the loader as [sheet_name]; for the loader that means every
    sheet, returned as a dict.  So where the loader, left to its own default,
    returns the first sheet of the workbook, [read_excel] without a sheet
    name raises an [AttributeError] at [df.shape]; it returns no table for
    any workbook. *)
Theorem read_excel_without_sheet_name w path kw st :
  match excel_file w path kw with
  | Return ((_, df) :: _) =>
      excel_loader w path default_sheet_name kw = Return (PyFrame df)
      ∧ fst (read_excel w path VNone kw st)
        = Raise (AttributeError "'dict' object has no attribute 'shape'")
  | Return [] =>
      fst (read_excel w path VNone kw st)
      = Raise (AttributeError "'dict' object has no attribute 'shape'")
  | Raise e => fst (read_excel w path VNone kw st) = Raise e
  end.
Proof.
  pose proof (read_excel_all_sheets w path kw st) as Hr.
  unfold excel_loader.
  destruct (excel_file w path kw) as [[|[name df] rest]|e]; try exact Hr.
  split; [apply select_first_sheet | exact Hr].
Qed.

Example two_sheet_workbook :
  excel_loader (Demo.world true) "book.xlsx" default_sheet_name ∅
  = Return (PyFrame Demo.users)
  ∧ fst (read_excel (Demo.world true) "book.xlsx" VNone ∅ initial)
    = Raise (AttributeError "'dict' object has no attribute 'shape'")
  ∧ fst (read_excel (Demo.world true) "book.xlsx" (VStr "Sheet1") ∅ initial)
    = Return (PyFrame Demo.users).
Proof. repeat split. Qed.

(** ** Dispatch on the extension *)




(** Membership in a list that is written out. *)
Ltac in_list H :=
  repeat (apply elem_of_cons in H as [H|H];
          [try discriminate H; try subst |]);
  try (by apply elem_of_nil in H).

Lemma dispatch_csv w path kw st :
  extension path = ".csv" →
  auto_detect_and_read w path kw st = read_csv w path kw (announced path st).
Proof.
  unfold auto_detect_and_read, announced. rewrite bind_run. cbn [print snd].
  generalize (extension path). by intros ? ->.
Qed.

Lemma dispatch_excel w path kw st :
  extension path = ".xlsx" ∨ extension path = ".xls" →
  auto_detect_and_read w path kw st
  = read_excel_kw w path kw (announced path st).
Proof.
  unfold auto_detect_and_read, announced. rewrite bind_run. cbn [print snd].
  generalize (extension path). by intros ? [-> | ->].
Qed.

Lemma dispatch_json w path kw st :
  extension path = ".json" →
  auto_detect_and_read w path kw st = read_json w path kw (announced path st).
Proof.
  unfold auto_detect_and_read, announced. rewrite bind_run. cbn [print snd].
  generalize (extension path). by intros ? ->.
Qed.

Lemma dispatch_sqlite w path kw st :
  extension path ∈ sqlite_extensions →
  auto_detect_and_read w path kw st
  = read_sqlite_auto w path kw (announced path st).
Proof.
  unfold auto_detect_and_read, announced. rewrite bind_run. cbn [print snd].
  generalize (extension path). intros ext Hext.
  unfold sqlite_extensions in Hext. in_list Hext; reflexivity.
Qed.




(** ** The SQLite branch *)

Lemma list_sqlite_tables_run w path st tables :
  sqlite_open w path = Return tt →
  sqlite_catalog w path = Return tables →
  list_sqlite_tables w path st
  = (Return tables,
     mk_state (stdout st ++ [Found tables])
       (connections st
        ++ [{| db_path := path; is_open := true;
               last_txn := Some Committed |}])
       (environ st)
       (issued st ++ [ReqConnect path; ReqCatalog (length (connections st))])).
Proof.
  intros Ho Hc. unfold list_sqlite_tables, try_except.
  rewrite bind_run, with_connect_catalog, Ho, Hc. reflexivity.
Qed.

(** What [read_sqlite_table] returns or raises is decided by the database
    alone, not by the state it is called in. *)
Lemma read_sqlite_table_result w path table kw st st' :
  fst (read_sqlite_table w path table kw st)
  = fst (read_sqlite_table w path table kw st').
Proof.
  unfold read_sqlite_table, try_except.
  rewrite !bind_run. cbn [print]. rewrite !bind_run, !with_connect_select.
  destruct (sqlite_open w path) as [[]|e]; run; outcomes; reflexivity.
Qed.

Lemma read_sqlite_table_stdout w path table kw st :
  ∃ more,
    stdout (snd (read_sqlite_table w path table kw st))
    = (stdout st ++ more)%list.
Proof.
  unfold read_sqlite_table, try_except.
  rewrite !bind_run. cbn [print]. rewrite !bind_run, !with_connect_select.
  destruct (sqlite_open w path) as [[]|e]; run; outcomes;
    rewrite <- ?app_assoc; eauto.
Qed.

(** C7.  On a path with a SQLite suffix whose database opens and lists its
    tables: with no table the call raises the [ValueError] that says so,
    whatever the options; otherwise a [table] option is read, and taken out
    of the options it is read with; otherwise the call returns or raises
    what [read_sqlite_table] does on the first name of the catalog, and the
    warning that names that table is among the lines printed. *)
Theorem sqlite_auto_detect w path kw st tables :
  extension path ∈ [".db"; ".sqlite"; ".sqlite3"] →
  sqlite_open w path = Return tt →
  sqlite_catalog w path = Return tables →
  match tables with
  | [] =>
      fst (auto_detect_and_read w path kw st)
      = Raise (ValueError no_tables_found)
  | first :: _ =>
      match kw !! "table" with
      | Some table =>
          fst (auto_detect_and_read w path kw st)
          = fst (read_sqlite_table w path table (delete "table" kw) st)
      | None =>
          fst (auto_detect_and_read w path kw st)
          = fst (read_sqlite_table w path (VStr first) kw st)
          ∧ Warning ("Multiple tables found. Reading first table: "
                     +:+ first)
            ∈ stdout (snd (auto_detect_and_read w path kw st))
      end
  end.
Proof.
  intros Hext Ho Hc. rewrite dispatch_sqlite by exact Hext.
  unfold read_sqlite_auto.
  rewrite bind_run, (list_sqlite_tables_run w path _ tables Ho Hc).
  destruct tables as [|first rest]; [reflexivity |].
  destruct (kw !! "table") as [table|].
  - apply read_sqlite_table_result.
  - rewrite bind_run. cbn [print]. split.
    + apply read_sqlite_table_result.
    + match goal with
      | |- _ ∈ stdout (snd (read_sqlite_table _ _ _ _ ?s)) =>
          destruct (read_sqlite_table_stdout w path (VStr first) kw s)
            as [more ->]
      end.
      cbn [stdout]. apply elem_of_app. left.
      apply elem_of_app. right. apply list_elem_of_singleton. reflexivity.
Qed.

Lemma sqlite_auto_detect_witness :
  let w := Demo.world true in
  (extension "app.db" ∈ [".db"; ".sqlite"; ".sqlite3"]
   ∧ sqlite_open w "app.db" = Return tt
   ∧ sqlite_catalog w "app.db" = Return ["users"; "orders"]
   ∧ sqlite_catalog w "empty.db" = Return [])
  ∧ fst (auto_detect_and_read w "app.db" ∅ initial)
    = fst (read_sqlite_table w "app.db" (VStr "users") ∅ initial)
  ∧ fst (auto_detect_and_read w "app.db" {["table" := VStr "orders"]} initial)
    = Return (PyFrame Demo.orders)
  ∧ fst (auto_detect_and_read w "empty.db" ∅ initial)
    = Raise (ValueError no_tables_found).
Proof.
  intros w.
  assert (Hin : ∀ p, extension p = ".db" →
                     extension p ∈ [".db"; ".sqlite"; ".sqlite3"])
    by (intros p ->; left).
  split; [split; [exact (Hin "app.db" eq_refl) | repeat split] |].
  split.
  { pose proof (sqlite_auto_detect w "app.db" ∅ initial ["users"; "orders"]
                  (Hin "app.db" eq_refl) eq_refl eq_refl) as H.
    rewrite lookup_empty in H. apply H. }
  split.
  { pose proof (sqlite_auto_detect w "app.db" {["table" := VStr "orders"]}
                  initial ["users"; "orders"] (Hin "app.db" eq_refl)
                  eq_refl eq_refl) as H.
    rewrite lookup_singleton_eq in H. rewrite H. reflexivity. }
  apply (sqlite_auto_detect w "empty.db" ∅ initial []
           (Hin "empty.db" eq_refl) eq_refl eq_refl).
Defined.

(** ** Failures of the loaders *)

Ltac surface :=
  run; outcomes; split; try reflexivity; try discriminate; try congruence.

Lemma read_csv_surfaces w path kw st e :
  csv_file w path kw = Raise e →
  surfaces (read_csv w path kw) st e [ReqCsv path kw].
Proof. intros H. unfold surfaces, read_csv. run. rewrite H. surface. Qed.

Lemma read_json_surfaces w path kw st e :
  json_file w path kw = Raise e →
  surfaces (read_json w path kw) st e [ReqJson path kw].
Proof. intros H. unfold surfaces, read_json. run. rewrite H. surface. Qed.

Lemma read_excel_surfaces w path sheet_name kw st e :
  excel_loader w path sheet_name kw = Raise e →
  surfaces (read_excel w path sheet_name kw) st e
    [ReqExcel path sheet_name kw].
Proof.
  intros H. unfold surfaces, read_excel. run. rewrite H.
  destruct (truthy sheet_name); surface.
Qed.

Lemma read_sqlite_table_surfaces w path table kw st e :
  match sqlite_open w path with
  | Return _ =>
      sqlite_select w path ("SELECT * FROM " +:+ py_str table) kw = Raise e →
      surfaces (read_sqlite_table w path table kw) st e
        [ReqConnect path;
         ReqSelect (length (connections st))
           ("SELECT * FROM " +:+ py_str table) kw]
  | Raise e' =>
      surfaces (read_sqlite_table w path table kw) st e' [ReqConnect path]
  end.
Proof.
  unfold surfaces, read_sqlite_table, try_except.
  rewrite bind_run. cbn [print]. rewrite bind_run, with_connect_select.
  destruct (sqlite_open w path) as [[]|e']; [intros ->|]; surface.
Qed.

Lemma read_sqlite_query_surfaces w path query kw st e :
  match sqlite_open w path with
  | Return _ =>
      sqlite_select w path query kw = Raise e →
      surfaces (read_sqlite_query w path query kw) st e
        [ReqConnect path; ReqSelect (length (connections st)) query kw]
  | Raise e' =>
      surfaces (read_sqlite_query w path query kw) st e' [ReqConnect path]
  end.
Proof.
  unfold surfaces, read_sqlite_query, try_except.
  rewrite bind_run. cbn [print]. rewrite bind_run. cbn [print].
  rewrite bind_run, with_connect_select.
  destruct (sqlite_open w path) as [[]|e']; [intros ->|]; surface.
Qed.

Lemma list_sqlite_tables_surfaces w path st e :
  match sqlite_open w path with
  | Return _ =>
      sqlite_catalog w path = Raise e →
      surfaces (list_sqlite_tables w path) st e
        [ReqConnect path; ReqCatalog (length (connections st))]
  | Raise e' => surfaces (list_sqlite_tables w path) st e' [ReqConnect path]
  end.
Proof.
  unfold surfaces, list_sqlite_tables, try_except.
  rewrite bind_run, with_connect_catalog.
  destruct (sqlite_open w path) as [[]|e']; [intros ->|]; surface.
Qed.

Lemma read_mysql_surfaces w host database username password table query
    port kw st sql e :
  importable w "pymysql" = true →
  (given query = true ∧ sql = str_of query
   ∨ given query = false ∧ given table = true
     ∧ sql = "SELECT * FROM " +:+ str_of table) →
  sql_server w (mysql_url username password host port database) sql kw
  = Raise e →
  surfaces (read_mysql w host database username password table query port kw)
    st e [ReqSqlUrl (mysql_url username password host port database) sql kw].
Proof.
  intros Hm Hsql He. unfold surfaces, read_mysql.
  rewrite bind_run, require_present by done.
  destruct Hsql as [(Hq & ->) | (Hq & Ht & ->)]; rewrite Hq, ?Ht;
    run; cbv [str_of default] in He; rewrite He; surface.
Qed.

Lemma read_postgresql_surfaces w host database username password table query
    port kw st sql e :
  importable w "psycopg2" = true →
  (given query = true ∧ sql = str_of query
   ∨ given query = false ∧ given table = true
     ∧ sql = "SELECT * FROM " +:+ str_of table) →
  sql_server w (postgresql_url username password host port database) sql kw
  = Raise e →
  surfaces
    (read_postgresql w host database username password table query port kw)
    st e
    [ReqSqlUrl (postgresql_url username password host port database) sql kw].
Proof.
  intros Hm Hsql He. unfold surfaces, read_postgresql.
  rewrite bind_run, require_present by done.
  destruct Hsql as [(Hq & ->) | (Hq & Ht & ->)]; rewrite Hq, ?Ht;
    run; cbv [str_of default] in He; rewrite He; surface.
Qed.

Lemma read_bigquery_surfaces w project query table_id cp kw st sql e :
  importable w "pandas_gbq" = true →
  has_nul (str_of cp) = false →
  (given query = true ∧ sql = str_of query
   ∨ given query = false ∧ given table_id = true
     ∧ sql = "SELECT * FROM `" +:+ str_of table_id +:+ "`") →
  bigquery w (exported cp (environ st)) project sql kw = Raise e →
  surfaces (read_bigquery w project query table_id cp kw) st e
    [ReqGbq (exported cp (environ st)) project sql kw].
Proof.
  intros Hm Hn Hsql He. unfold surfaces, read_bigquery, exported in *.
  rewrite bind_run, require_present by done.
  destruct Hsql as [(Hq & ->) | (Hq & Ht & ->)]; rewrite Hq, ?Ht;
    destruct (given cp); run; export Hn; cbv [str_of default id] in He;
    rewrite He; surface.
Qed.

Lemma surfaces_announced w path kw st e reqs (reader : M pyobj) :
  auto_detect_and_read w path kw st = reader (announced path st) →
  surfaces reader (announced path st) e reqs →
  surfaces (auto_detect_and_read w path kw) st e reqs.
Proof. unfold surfaces. intros ->. done. Qed.

Lemma read_sqlite_auto_surfaces_listing w path kw st e reqs :
  surfaces (list_sqlite_tables w path) st e reqs →
  surfaces (read_sqlite_auto w path kw) st e reqs.
Proof.
  unfold surfaces, read_sqlite_auto. rewrite bind_run.
  destruct (list_sqlite_tables w path st) as [[tables|e'] st'];
    intros [H1 H2]; cbn [fst snd] in *.
  - discriminate H1.
  - injection H1 as ->. split; [reflexivity | exact H2].
Qed.

Lemma read_sqlite_auto_surfaces_read w path kw st first rest table e :
  sqlite_open w path = Return tt →
  sqlite_catalog w path = Return (first :: rest) →
  table = default (VStr first) (kw !! "table") →
  sqlite_select w path ("SELECT * FROM " +:+ py_str table)
    (delete "table" kw) = Raise e →
  surfaces (read_sqlite_auto w path kw) st e
    [ReqConnect path; ReqCatalog (length (connections st));
     ReqConnect path;
     ReqSelect (S (length (connections st)))
       ("SELECT * FROM " +:+ py_str table) (delete "table" kw)].
Proof.
  intros Ho Hc -> He. unfold read_sqlite_auto, surfaces.
  rewrite bind_run, (list_sqlite_tables_run w path st _ Ho Hc).
  pose proof (read_sqlite_table_surfaces w path
                (default (VStr first) (kw !! "table")) (delete "table" kw))
    as Hread.
  destruct (kw !! "table") as [t|] eqn:Hkw; cbn [default from_option id] in *.
  - specialize (Hread
      (mk_state (stdout st ++ [Found (first :: rest)])
         (connections st
          ++ [{| db_path := path; is_open := true;
                 last_txn := Some Committed |}])
         (environ st)
         (issued st
          ++ [ReqConnect path; ReqCatalog (length (connections st))])) e).
    rewrite Ho in Hread. destruct (Hread He) as [H1 H2].
    split; [exact H1 |]. rewrite H2. cbn [issued connections].
    rewrite length_app, Nat.add_1_r, <- app_assoc. reflexivity.
  - rewrite (delete_id kw "table") in * by done.
    rewrite bind_run. cbn [print stdout connections environ issued].
    specialize (Hread
      (mk_state
         ((stdout st ++ [Found (first :: rest)])
          ++ [Warning ("Multiple tables found. Reading first table: "
                       +:+ first)])
         (connections st
          ++ [{| db_path := path; is_open := true;
                 last_txn := Some Committed |}])
         (environ st)
         (issued st
          ++ [ReqConnect path; ReqCatalog (length (connections st))])) e).
    rewrite Ho in Hread. destruct (Hread He) as [H1 H2].
    split; [exact H1 |]. rewrite H2. cbn [issued connections].
    rewrite length_app, Nat.add_1_r, <- app_assoc. reflexivity.
Qed.

(** C9.  Whatever a loader raises, the reader that called it raises: the
    same exception, class and message, after that one invocation and no
    second one.  This holds for the three file readers, for the three SQLite
    operations (where [sqlite3.connect] counts as a loader too), for the
    three networked readers once their driver is present and a query or
    table selects the statement (and, for [read_bigquery], the credentials
    path, if any, holds no NUL character, so that the call gets as far as
    its loader), and for [auto_detect_and_read] through each of its
    branches. *)
Theorem loader_failure_propagates w st e :
  (∀ path kw,
     csv_file w path kw = Raise e →
     surfaces (read_csv w path kw) st e [ReqCsv path kw])
  ∧ (∀ path sheet_name kw,
       excel_loader w path sheet_name kw = Raise e →
       surfaces (read_excel w path sheet_name kw) st e
         [ReqExcel path sheet_name kw])
  ∧ (∀ path kw,
       json_file w path kw = Raise e →
       surfaces (read_json w path kw) st e [ReqJson path kw])
  ∧ (∀ path table query kw,
       sqlite_open w path = Raise e →
       surfaces (read_sqlite_table w path table kw) st e [ReqConnect path]
       ∧ surfaces (read_sqlite_query w path query kw) st e [ReqConnect path]
       ∧ surfaces (list_sqlite_tables w path) st e [ReqConnect path])
  ∧ (∀ path table kw,
       sqlite_open w path = Return tt →
       sqlite_select w path ("SELECT * FROM " +:+ py_str table) kw = Raise e →
       surfaces (read_sqlite_table w path table kw) st e
         [ReqConnect path;
          ReqSelect (length (connections st))
            ("SELECT * FROM " +:+ py_str table) kw])
  ∧ (∀ path query kw,
       sqlite_open w path = Return tt →
       sqlite_select w path query kw = Raise e →
       surfaces (read_sqlite_query w path query kw) st e
         [ReqConnect path; ReqSelect (length (connections st)) query kw])
  ∧ (∀ path,
       sqlite_open w path = Return tt →
       sqlite_catalog w path = Raise e →
       surfaces (list_sqlite_tables w path) st e
         [ReqConnect path; ReqCatalog (length (connections st))])
  ∧ (∀ host database username password table query port kw sql,
       importable w "pymysql" = true →
       (given query = true ∧ sql = str_of query
        ∨ given query = false ∧ given table = true
          ∧ sql = "SELECT * FROM " +:+ str_of table) →
       sql_server w (mysql_url username password host port database) sql kw
       = Raise e →
       surfaces
         (read_mysql w host database username password table query port kw)
         st e
         [ReqSqlUrl (mysql_url username password host port database) sql kw])
  ∧ (∀ host database username password table query port kw sql,
       importable w "psycopg2" = true →
       (given query = true ∧ sql = str_of query
        ∨ given query = false ∧ given table = true
          ∧ sql = "SELECT * FROM " +:+ str_of table) →
       sql_server w (postgresql_url username password host port database)
         sql kw = Raise e →
       surfaces
         (read_postgresql w host database username password table query port
            kw)
         st e
         [ReqSqlUrl (postgresql_url username password host port database)
            sql kw])
  ∧ (∀ project query table_id cp kw sql,
       importable w "pandas_gbq" = true →
       has_nul (str_of cp) = false →
       (given query = true ∧ sql = str_of query
        ∨ given query = false ∧ given table_id = true
          ∧ sql = "SELECT * FROM `" +:+ str_of table_id +:+ "`") →
       bigquery w (exported cp (environ st)) project sql kw = Raise e →
       surfaces (read_bigquery w project query table_id cp kw) st e
         [ReqGbq (exported cp (environ st)) project sql kw])
  ∧ (∀ path kw,
       extension path = ".csv" →
       csv_file w path kw = Raise e →
       surfaces (auto_detect_and_read w path kw) st e [ReqCsv path kw])
  ∧ (∀ path kw sheet_name,
       extension path = ".xlsx" ∨ extension path = ".xls" →
       sheet_name = default VNone (kw !! "sheet_name") →
       excel_loader w path sheet_name (delete "sheet_name" kw) = Raise e →
       surfaces (auto_detect_and_read w path kw) st e
         [ReqExcel path sheet_name (delete "sheet_name" kw)])
  ∧ (∀ path kw,
       extension path = ".json" →
       json_file w path kw = Raise e →
       surfaces (auto_detect_and_read w path kw) st e [ReqJson path kw])
  ∧ (∀ path kw,
       extension path ∈ sqlite_extensions →
       sqlite_open w path = Raise e →
       surfaces (auto_detect_and_read w path kw) st e [ReqConnect path])
  ∧ (∀ path kw,
       extension path ∈ sqlite_extensions →
       sqlite_open w path = Return tt →
       sqlite_catalog w path = Raise e →
       surfaces (auto_detect_and_read w path kw) st e
         [ReqConnect path; ReqCatalog (length (connections st))])
  ∧ (∀ path kw first rest table,
       extension path ∈ sqlite_extensions →
       sqlite_open w path = Return tt →
       sqlite_catalog w path = Return (first :: rest) →
       table = default (VStr first) (kw !! "table") →
       sqlite_select w path ("SELECT * FROM " +:+ py_str table)
         (delete "table" kw) = Raise e →
       surfaces (auto_detect_and_read w path kw) st e
         [ReqConnect path; ReqCatalog (length (connections st));
          ReqConnect path;
          ReqSelect (S (length (connections st)))
            ("SELECT * FROM " +:+ py_str table) (delete "table" kw)]).
Proof.
  split; [intros; by apply read_csv_surfaces |].
  split; [intros; by apply read_excel_surfaces |].
  split; [intros; by apply read_json_surfaces |].
  split.
  { intros path table query kw Ho.
    pose proof (read_sqlite_table_surfaces w path table kw st e) as H1.
    pose proof (read_sqlite_query_surfaces w path query kw st e) as H2.
    pose proof (list_sqlite_tables_surfaces w path st e) as H3.
    rewrite Ho in H1, H2, H3. done. }
  split.
  { intros path table kw Ho.
    pose proof (read_sqlite_table_surfaces w path table kw st e) as H1.
    by rewrite Ho in H1. }
  split.
  { intros path query kw Ho.
    pose proof (read_sqlite_query_surfaces w path query kw st e) as H1.
    by rewrite Ho in H1. }
  split.
  { intros path Ho.
    pose proof (list_sqlite_tables_surfaces w path st e) as H1.
    by rewrite Ho in H1. }
  split; [intros; by apply read_mysql_surfaces |].
  split; [intros; by apply read_postgresql_surfaces |].
  split; [intros; by apply read_bigquery_surfaces |].
  split.
  { intros path kw Hext He.
    apply (surfaces_announced w path kw st e _ (read_csv w path kw)).
    - by apply dispatch_csv.
    - by apply read_csv_surfaces. }
  split.
  { intros path kw sheet_name Hext -> He.
    apply (surfaces_announced w path kw st e _ (read_excel_kw w path kw)).
    - by apply dispatch_excel.
    - by apply read_excel_surfaces. }
  split.
  { intros path kw Hext He.
    apply (surfaces_announced w path kw st e _ (read_json w path kw)).
    - by apply dispatch_json.
    - by apply read_json_surfaces. }
  split.
  { intros path kw Hext Ho.
    apply (surfaces_announced w path kw st e _ (read_sqlite_auto w path kw)).
    - by apply dispatch_sqlite.
    - apply read_sqlite_auto_surfaces_listing.
      pose proof (list_sqlite_tables_surfaces w path (announced path st) e)
        as H1.
      by rewrite Ho in H1. }
  split.
  { intros path kw Hext Ho Hc.
    apply (surfaces_announced w path kw st e _ (read_sqlite_auto w path kw)).
    - by apply dispatch_sqlite.
    - apply read_sqlite_auto_surfaces_listing.
      pose proof (list_sqlite_tables_surfaces w path (announced path st) e)
        as H1.
      rewrite Ho in H1. by apply H1. }
  intros path kw first rest table Hext Ho Hc Ht He.
  apply (surfaces_announced w path kw st e _ (read_sqlite_auto w path kw)).
  - by apply dispatch_sqlite.
  - by apply (read_sqlite_auto_surfaces_read w path kw (announced path st)
                first rest table e).
Qed.

Lemma loader_failure_propagates_witness :
  let w := Demo.world true in
  (csv_file w "nope.csv" ∅ = Raise (Demo.not_found "nope.csv")
   ∧ surfaces (read_csv w "nope.csv" ∅) initial (Demo.not_found "nope.csv")
       [ReqCsv "nope.csv" ∅])
  ∧ (sqlite_open w "app.db" = Return tt
     ∧ sqlite_select w "app.db" "SELECT * FROM missing" ∅
       = Raise (Demo.no_such_table "SELECT * FROM missing")
     ∧ surfaces (read_sqlite_query w "app.db" "SELECT * FROM missing" ∅)
         initial (Demo.no_such_table "SELECT * FROM missing")
         [ReqConnect "app.db"; ReqSelect 0 "SELECT * FROM missing" ∅])
  ∧ (importable w "pymysql" = true
     ∧ sql_server w (mysql_url "u" "p" "db.remote" 3306 "shop")
         "SELECT * FROM users" ∅ = Raise Demo.unreachable
     ∧ surfaces
         (read_mysql w "db.remote" "shop" "u" "p" (Some "users") None 3306 ∅)
         initial Demo.unreachable
         [ReqSqlUrl (mysql_url "u" "p" "db.remote" 3306 "shop")
            "SELECT * FROM users" ∅]).
Proof.
  intros w.
  split.
  { split; [reflexivity |].
    apply (loader_failure_propagates w initial (Demo.not_found "nope.csv")).
    reflexivity. }
  split.
  { split; [reflexivity |]. split; [reflexivity |].
    destruct (loader_failure_propagates w initial
                (Demo.no_such_table "SELECT * FROM missing"))
      as (_ & _ & _ & _ & _ & Hq & _).
    apply (Hq "app.db" "SELECT * FROM missing" ∅); reflexivity. }
  split; [reflexivity |]. split; [reflexivity |].
  destruct (loader_failure_propagates w initial Demo.unreachable)
    as (_ & _ & _ & _ & _ & _ & _ & Hm & _).
  apply (Hm "db.remote" "shop" "u" "p" (Some "users") None 3306%Z ∅
           "SELECT * FROM users").
  - reflexivity.
  - right. repeat split.
  - reflexivity.
Defined.

(** ** A missing driver and a failed connection *)




(** * Further properties *)

(** ** Relations that every step keeps *)

Section Keeps.

Context (R : state → state → Prop) `{!PreOrder R}.

Lemma keeps_ret {A} (a : A) : keeps R (mret a : M A).
Proof. intros st. reflexivity. Qed.

Lemma keeps_raise {A} (e : exn) : keeps R (raise e : M A).
Proof. intros st. reflexivity. Qed.

Lemma keeps_lift {A} (o : outcome A) : keeps R (lift o).
Proof. intros st. reflexivity. Qed.

Lemma keeps_bind {A B} (m : M A) (f : A → M B) :
  keeps R m → (∀ a, keeps R (f a)) → keeps R (m ≫= f).
Proof.
  intros Hm Hf st. rewrite bind_run. specialize (Hm st).
  destruct (m st) as [[a|e] st1]; cbn [snd] in *; [| exact Hm].
  etrans; [exact Hm | apply Hf].
Qed.

Lemma keeps_try_except {A} (body : M A) cls (handler : exn → M A) :
  keeps R body → (∀ e, keeps R (handler e)) →
  keeps R (try_except body cls handler).
Proof.
  intros Hb Hh st. unfold try_except. specialize (Hb st).
  destruct (body st) as [[a|e] st1]; cbn [snd] in *; [exact Hb |].
  destruct (cls e); cbn [snd]; [| exact Hb].
  etrans; [exact Hb | apply Hh].
Qed.

Lemma keeps_if {A} (b : bool) (m1 m2 : M A) :
  keeps R m1 → keeps R m2 → keeps R (if b then m1 else m2).
Proof. by destruct b. Qed.

End Keeps.

Global Instance appended_preorder : PreOrder appended.
Proof.
  split.
  - intros st. by repeat split.
  - intros st1 st2 st3 (H1 & H2 & H3) (H1' & H2' & H3').
    repeat split; by etrans.
Qed.

Global Instance same_environ_preorder : PreOrder same_environ.
Proof.
  split; [by intros st |].
  intros st1 st2 st3 H1 H2. unfold same_environ in *. congruence.
Qed.

Global Instance same_connections_preorder : PreOrder same_connections.
Proof.
  split; [by intros st |].
  intros st1 st2 st3 H1 H2. unfold same_connections in *. congruence.
Qed.

(** The readers, over any relation that printing, logging a request and a
    [with sqlite3.connect] block keep. *)
Section KeepsReaders.

Context (R : state → state → Prop) `{!PreOrder R}.
Context (w : World).
Hypothesis keeps_print : ∀ l, keeps R (print l).
Hypothesis keeps_record : ∀ r st, R st (record r st).
Hypothesis keeps_with_connect :
  ∀ A path (r : nat → request) (run : string → outcome A),
    keeps R (with_connect w path (λ conn, on_connection conn (r conn) run)).

Lemma keeps_loaded df : keeps R (loaded df).
Proof.
  unfold loaded. apply keeps_bind; [done | apply keeps_lift; done |].
  intros shape. apply keeps_bind; [done | apply keeps_print |].
  intros _. by apply keeps_ret.
Qed.

Lemma keeps_reraise {A} what e : keeps R (reraise what e : M A).
Proof.
  unfold reraise. apply keeps_bind; [done | apply keeps_print |].
  intros _. by apply keeps_raise.
Qed.

Lemma keeps_require module msg : keeps R (require w module msg).
Proof.
  unfold require, import_module. apply keeps_try_except; [done | |].
  - apply keeps_if; [by apply keeps_ret | by apply keeps_raise].
  - intros _. by apply keeps_raise.
Qed.

Lemma keeps_read_csv path kw : keeps R (read_csv w path kw).
Proof.
  unfold read_csv. apply keeps_try_except; [done | | apply keeps_reraise].
  apply keeps_bind; [done | apply keeps_print |]. intros _.
  apply keeps_bind; [done | | apply keeps_loaded].
  intros st. apply keeps_record.
Qed.

Lemma keeps_read_json path kw : keeps R (read_json w path kw).
Proof.
  unfold read_json. apply keeps_try_except; [done | | apply keeps_reraise].
  apply keeps_bind; [done | apply keeps_print |]. intros _.
  apply keeps_bind; [done | | apply keeps_loaded].
  intros st. apply keeps_record.
Qed.

Lemma keeps_read_excel path sheet_name kw :
  keeps R (read_excel w path sheet_name kw).
Proof.
  unfold read_excel. apply keeps_try_except; [done | | apply keeps_reraise].
  apply keeps_bind; [done | apply keeps_print |]. intros _.
  apply keeps_bind; [done | |].
  { apply keeps_if; [apply keeps_print | by apply keeps_ret]. }
  intros _. apply keeps_bind; [done | | apply keeps_loaded].
  intros st. apply keeps_record.
Qed.

Lemma keeps_read_sqlite_table path table kw :
  keeps R (read_sqlite_table w path table kw).
Proof.
  unfold read_sqlite_table.
  apply keeps_try_except; [done | | apply keeps_reraise].
  apply keeps_bind; [done | apply keeps_print |]. intros _.
  apply keeps_bind; [done | | apply keeps_loaded].
  unfold pd_read_sql_conn. apply keeps_with_connect.
Qed.

Lemma keeps_read_sqlite_query path query kw :
  keeps R (read_sqlite_query w path query kw).
Proof.
  unfold read_sqlite_query.
  apply keeps_try_except; [done | | apply keeps_reraise].
  apply keeps_bind; [done | apply keeps_print |]. intros _.
  apply keeps_bind; [done | apply keeps_print |]. intros _.
  apply keeps_bind; [done | | apply keeps_loaded].
  unfold pd_read_sql_conn. apply keeps_with_connect.
Qed.

Lemma keeps_list_sqlite_tables path : keeps R (list_sqlite_tables w path).
Proof.
  unfold list_sqlite_tables.
  apply keeps_try_except; [done | | apply keeps_reraise].
  apply keeps_bind; [done | |].
  { unfold fetch_table_names. apply keeps_with_connect. }
  intros tables. apply keeps_bind; [done | apply keeps_print |].
  intros _. by apply keeps_ret.
Qed.

(** The statement a networked reader settles on, or its refusal. *)
Lemma keeps_chosen (query table : option string) (label : string)
    (select : string → string) (run : string → M pyobj) (msg : string) :
  (∀ sql, keeps R (run sql)) →
  keeps R (if given query then
             print (Status ("Executing query: " +:+ preview (str_of query)));;
             run (str_of query)
           else if given table then
             print (Status (label +:+ str_of table));;
             run (select (str_of table))
           else raise (ValueError msg)).
Proof.
  intros Hrun. apply keeps_if; [| apply keeps_if].
  - apply keeps_bind; [done | apply keeps_print | intros _; apply Hrun].
  - apply keeps_bind; [done | apply keeps_print | intros _; apply Hrun].
  - by apply keeps_raise.
Qed.

Lemma keeps_read_mysql host database username password table query port kw :
  keeps R (read_mysql w host database username password table query port kw).
Proof.
  unfold read_mysql. apply keeps_bind; [done | apply keeps_require |].
  intros _. apply keeps_try_except; [done | | apply keeps_reraise].
  apply keeps_bind; [done | apply keeps_print |]. intros _.
  apply keeps_bind; [done | | apply keeps_loaded].
  apply (keeps_chosen query table "Reading table: "
           (λ t, "SELECT * FROM " +:+ t)
           (λ sql, pd_read_sql_url w sql
                     (mysql_url username password host port database) kw)).
  intros sql st. apply keeps_record.
Qed.

Lemma keeps_read_postgresql host database username password table query port
    kw :
  keeps R
    (read_postgresql w host database username password table query port kw).
Proof.
  unfold read_postgresql. apply keeps_bind; [done | apply keeps_require |].
  intros _. apply keeps_try_except; [done | | apply keeps_reraise].
  apply keeps_bind; [done | apply keeps_print |]. intros _.
  apply keeps_bind; [done | | apply keeps_loaded].
  apply (keeps_chosen query table "Reading table: "
           (λ t, "SELECT * FROM " +:+ t)
           (λ sql, pd_read_sql_url w sql
                     (postgresql_url username password host port database)
                     kw)).
  intros sql st. apply keeps_record.
Qed.

Lemma keeps_read_bigquery project query table_id credentials_path kw :
  (∀ k v, keeps R (setenv k v)) →
  keeps R (read_bigquery w project query table_id credentials_path kw).
Proof.
  intros keeps_setenv.
  unfold read_bigquery. apply keeps_bind; [done | apply keeps_require |].
  intros _. apply keeps_try_except; [done | | apply keeps_reraise].
  apply keeps_bind; [done | apply keeps_print |]. intros _.
  apply keeps_bind; [done | |].
  { apply keeps_if; [| by apply keeps_ret].
    apply keeps_bind; [done | apply keeps_setenv |].
    intros _. apply keeps_print. }
  intros _. apply keeps_bind; [done | | apply keeps_loaded].
  apply (keeps_chosen query table_id "Reading table: "
           (λ t, "SELECT * FROM `" +:+ t +:+ "`")
           (λ sql, pandas_gbq_read_gbq w sql project kw)).
  intros sql st. apply keeps_record.
Qed.

Lemma keeps_read_sqlite_auto path kw : keeps R (read_sqlite_auto w path kw).
Proof.
  unfold read_sqlite_auto.
  apply keeps_bind; [done | apply keeps_list_sqlite_tables |].
  intros [|first rest]; [by apply keeps_raise |].
  destruct (kw !! "table") as [table|]; [apply keeps_read_sqlite_table |].
  apply keeps_bind; [done | apply keeps_print |]. intros _.
  apply keeps_read_sqlite_table.
Qed.

Lemma keeps_auto_detect_and_read path kw :
  keeps R (auto_detect_and_read w path kw).
Proof.
  unfold auto_detect_and_read.
  apply keeps_bind; [done | apply keeps_print |]. intros _.
  repeat (apply keeps_if; [|]).
  - apply keeps_read_csv.
  - apply keeps_read_excel.
  - apply keeps_read_json.
  - apply keeps_read_sqlite_auto.
  - by apply keeps_raise.
Qed.

End KeepsReaders.

(** ** The state only grows *)

Lemma appended_print l : keeps appended (print l).
Proof.
  intros st. repeat split; cbn; [by apply prefix_app_r | done..].
Qed.

Lemma appended_record r st : appended st (record r st).
Proof. repeat split; cbn; [done.. | by apply prefix_app_r]. Qed.

Lemma appended_setenv k v : keeps appended (setenv k v).
Proof.
  intros st. unfold setenv. by destruct (putenv_error k v); repeat split.
Qed.

Lemma appended_with_connect w A path (r : nat → request)
    (run : string → outcome A) :
  keeps appended (with_connect w path (λ conn, on_connection conn (r conn) run)).
Proof.
  intros st. rewrite with_connect_run.
  destruct (sqlite_open w path) as [[]|e]; [| apply appended_record].
  repeat split; cbn; [done | by apply prefix_app_r..].
Qed.

(** X1.  No operation of the connector rewrites history: the lines printed
    before a call, the connections that existed before it and the requests
    made before it are all still there, unchanged and in place, when the
    call has returned or raised; a call only appends. *)
Theorem state_only_grows w path sheet_name table query kw host database
    username password mtable mquery port project table_id credentials_path :
  keeps appended (read_csv w path kw)
  ∧ keeps appended (read_excel w path sheet_name kw)
  ∧ keeps appended (read_json w path kw)
  ∧ keeps appended (read_sqlite_table w path table kw)
  ∧ keeps appended (read_sqlite_query w path query kw)
  ∧ keeps appended (list_sqlite_tables w path)
  ∧ keeps appended
      (read_mysql w host database username password mtable mquery port kw)
  ∧ keeps appended
      (read_postgresql w host database username password mtable mquery port
         kw)
  ∧ keeps appended
      (read_bigquery w project mquery table_id credentials_path kw)
  ∧ keeps appended (auto_detect_and_read w path kw).
Proof.
  pose proof appended_print as Hp.
  pose proof appended_record as Hr.
  pose proof (appended_with_connect w) as Hc.
  split; [exact (keeps_read_csv _ w Hp Hr _ _) |].
  split; [exact (keeps_read_excel _ w Hp Hr _ _ _) |].
  split; [exact (keeps_read_json _ w Hp Hr _ _) |].
  split; [exact (keeps_read_sqlite_table _ w Hp Hc _ _ _) |].
  split; [exact (keeps_read_sqlite_query _ w Hp Hc _ _ _) |].
  split; [exact (keeps_list_sqlite_tables _ w Hp Hc _) |].
  split; [exact (keeps_read_mysql _ w Hp Hr _ _ _ _ _ _ _ _) |].
  split; [exact (keeps_read_postgresql _ w Hp Hr _ _ _ _ _ _ _ _) |].
  split; [exact (keeps_read_bigquery _ w Hp Hr _ _ _ _ _ appended_setenv) |].
  exact (keeps_auto_detect_and_read _ w Hp Hr Hc _ _).
Qed.

(** ** The environment *)

Lemma same_environ_print l : keeps same_environ (print l).
Proof. by intros st. Qed.

Lemma same_environ_record r st : same_environ st (record r st).
Proof. done. Qed.

Lemma same_environ_with_connect w A path (r : nat → request)
    (run : string → outcome A) :
  keeps same_environ
    (with_connect w path (λ conn, on_connection conn (r conn) run)).
Proof.
  intros st. rewrite with_connect_run.
  by destruct (sqlite_open w path) as [[]|e].
Qed.

(** X2.  Of all the operations only [read_bigquery] touches the process
    environment: every other one, [auto_detect_and_read] included, ends
    with the environment it started with, on every path. *)
Theorem environ_untouched w path sheet_name table query kw host database
    username password mtable mquery port :
  keeps same_environ (read_csv w path kw)
  ∧ keeps same_environ (read_excel w path sheet_name kw)
  ∧ keeps same_environ (read_json w path kw)
  ∧ keeps same_environ (read_sqlite_table w path table kw)
  ∧ keeps same_environ (read_sqlite_query w path query kw)
  ∧ keeps same_environ (list_sqlite_tables w path)
  ∧ keeps same_environ
      (read_mysql w host database username password mtable mquery port kw)
  ∧ keeps same_environ
      (read_postgresql w host database username password mtable mquery port
         kw)
  ∧ keeps same_environ (auto_detect_and_read w path kw).
Proof.
  pose proof same_environ_print as Hp.
  pose proof same_environ_record as Hr.
  pose proof (same_environ_with_connect w) as Hc.
  split; [exact (keeps_read_csv _ w Hp Hr _ _) |].
  split; [exact (keeps_read_excel _ w Hp Hr _ _ _) |].
  split; [exact (keeps_read_json _ w Hp Hr _ _) |].
  split; [exact (keeps_read_sqlite_table _ w Hp Hc _ _ _) |].
  split; [exact (keeps_read_sqlite_query _ w Hp Hc _ _ _) |].
  split; [exact (keeps_list_sqlite_tables _ w Hp Hc _) |].
  split; [exact (keeps_read_mysql _ w Hp Hr _ _ _ _ _ _ _ _) |].
  split; [exact (keeps_read_postgresql _ w Hp Hr _ _ _ _ _ _ _ _) |].
  exact (keeps_auto_detect_and_read _ w Hp Hr Hc _ _).
Qed.

(** ** Connections of the other readers *)

Lemma same_connections_print l : keeps same_connections (print l).
Proof. by intros st. Qed.

Lemma same_connections_record r st : same_connections st (record r st).
Proof. done. Qed.

Lemma same_connections_setenv k v : keeps same_connections (setenv k v).
Proof. intros st. unfold setenv. by destruct (putenv_error k v). Qed.

(** X3.  The file readers and the networked readers never open, close or
    alter a SQLite connection: the connection table after the call is the
    one before it. *)
Theorem no_sqlite_connection_touched w path sheet_name kw host database
    username password table query port project table_id credentials_path :
  keeps same_connections (read_csv w path kw)
  ∧ keeps same_connections (read_excel w path sheet_name kw)
  ∧ keeps same_connections (read_json w path kw)
  ∧ keeps same_connections
      (read_mysql w host database username password table query port kw)
  ∧ keeps same_connections
      (read_postgresql w host database username password table query port kw)
  ∧ keeps same_connections
      (read_bigquery w project query table_id credentials_path kw).
Proof.
  pose proof same_connections_print as Hp.
  pose proof same_connections_record as Hr.
  split; [exact (keeps_read_csv _ w Hp Hr _ _) |].
  split; [exact (keeps_read_excel _ w Hp Hr _ _ _) |].
  split; [exact (keeps_read_json _ w Hp Hr _ _) |].
  split; [exact (keeps_read_mysql _ w Hp Hr _ _ _ _ _ _ _ _) |].
  split; [exact (keeps_read_postgresql _ w Hp Hr _ _ _ _ _ _ _ _) |].
  exact (keeps_read_bigquery _ w Hp Hr _ _ _ _ _ same_connections_setenv).
Qed.

(** ** How many requests a call makes *)

Ltac count_requests :=
  first [ exists []; split; [by rewrite app_nil_r | cbn; lia]
        | eexists [_]; split; [reflexivity | cbn; lia]
        | eexists [_; _]; split; [reflexivity | cbn; lia] ].

Lemma requests_within_trans n k st1 st2 st3 :
  requests_within n st1 st2 → requests_within k st2 st3 →
  requests_within (n + k) st1 st3.
Proof.
  intros (r1 & H1 & L1) (r2 & H2 & L2). exists (r1 ++ r2)%list.
  split; [by rewrite H2, H1, app_assoc |].
  rewrite length_app. lia.
Qed.

Lemma requests_within_print n l st st' :
  requests_within n (snd (print l st)) st' → requests_within n st st'.
Proof. done. Qed.

Lemma read_csv_request_count w path kw :
  keeps (requests_within 1) (read_csv w path kw).
Proof.
  intros st. unfold requests_within, read_csv. run. outcomes; count_requests.
Qed.

Lemma read_json_request_count w path kw :
  keeps (requests_within 1) (read_json w path kw).
Proof.
  intros st. unfold requests_within, read_json. run. outcomes; count_requests.
Qed.

Lemma read_excel_request_count w path sheet_name kw :
  keeps (requests_within 1) (read_excel w path sheet_name kw).
Proof.
  intros st. unfold requests_within, read_excel. run.
  destruct (truthy sheet_name); cbn [fst snd issued];
    outcomes; count_requests.
Qed.

Lemma read_sqlite_table_request_count w path table kw :
  keeps (requests_within 2) (read_sqlite_table w path table kw).
Proof.
  intros st. unfold requests_within, read_sqlite_table, try_except.
  rewrite bind_run. cbn [print]. rewrite bind_run, with_connect_select.
  destruct (sqlite_open w path) as [[]|e]; run; outcomes; count_requests.
Qed.

Lemma read_sqlite_query_request_count w path query kw :
  keeps (requests_within 2) (read_sqlite_query w path query kw).
Proof.
  intros st. unfold requests_within, read_sqlite_query, try_except.
  rewrite bind_run. cbn [print]. rewrite bind_run. cbn [print].
  rewrite bind_run, with_connect_select.
  destruct (sqlite_open w path) as [[]|e]; run; outcomes; count_requests.
Qed.

Lemma list_sqlite_tables_request_count w path :
  keeps (requests_within 2) (list_sqlite_tables w path).
Proof.
  intros st. unfold requests_within, list_sqlite_tables, try_except.
  rewrite bind_run, with_connect_catalog.
  destruct (sqlite_open w path) as [[]|e]; run; outcomes; count_requests.
Qed.

Lemma read_mysql_request_count w host database username password table query port
    kw :
  keeps (requests_within 1)
    (read_mysql w host database username password table query port kw).
Proof.
  intros st. unfold requests_within, read_mysql. rewrite bind_run.
  destruct (importable w "pymysql") eqn:Hm.
  - rewrite require_present by done. run.
    destruct (given query); [| destruct (given table)];
      cbn [fst snd issued]; outcomes; count_requests.
  - rewrite require_missing by done. count_requests.
Qed.

Lemma read_postgresql_request_count w host database username password table query
    port kw :
  keeps (requests_within 1)
    (read_postgresql w host database username password table query port kw).
Proof.
  intros st. unfold requests_within, read_postgresql. rewrite bind_run.
  destruct (importable w "psycopg2") eqn:Hm.
  - rewrite require_present by done. run.
    destruct (given query); [| destruct (given table)];
      cbn [fst snd issued]; outcomes; count_requests.
  - rewrite require_missing by done. count_requests.
Qed.

Lemma read_bigquery_request_count w project query table_id credentials_path kw :
  keeps (requests_within 1)
    (read_bigquery w project query table_id credentials_path kw).
Proof.
  intros st. unfold requests_within, read_bigquery. rewrite bind_run.
  destruct (importable w "pandas_gbq") eqn:Hm.
  - rewrite require_present by done. run.
    destruct (given credentials_path); assignment;
      (destruct (given query); [| destruct (given table_id)]);
      cbn [fst snd issued environ]; outcomes; count_requests.
  - rewrite require_missing by done. count_requests.
Qed.

Lemma requests_within_mono n k st st' :
  (n ≤ k)%nat → requests_within n st st' → requests_within k st st'.
Proof. intros Hle (r & H & L). exists r. split; [done | lia]. Qed.

Lemma read_sqlite_auto_request_count w path kw :
  keeps (requests_within 4) (read_sqlite_auto w path kw).
Proof.
  intros st. unfold read_sqlite_auto. rewrite bind_run.
  pose proof (list_sqlite_tables_request_count w path st) as Hl.
  destruct (list_sqlite_tables w path st) as [[tables|e] st1]; cbn [snd] in *.
  - destruct tables as [|first rest].
    + apply (requests_within_mono 2); [lia | exact Hl].
    + destruct (kw !! "table") as [table|].
      * apply (requests_within_trans 2 2 st st1); [done |].
        apply read_sqlite_table_request_count.
      * rewrite bind_run. cbn [print].
        apply (requests_within_trans 2 2 st st1); [done |].
        apply requests_within_print with (l := Warning
          ("Multiple tables found. Reading first table: " +:+ first)).
        apply read_sqlite_table_request_count.
  - apply (requests_within_mono 2); [lia | exact Hl].
Qed.

Lemma auto_detect_and_read_request_count w path kw :
  keeps (requests_within 4) (auto_detect_and_read w path kw).
Proof.
  intros st. unfold auto_detect_and_read. rewrite bind_run. cbn [print].
  apply requests_within_print with
    (l := Status ("Auto-detecting file type: " +:+ extension path)).
  cbn [print snd]. repeat case_bool_decide.
  - apply (requests_within_mono 1); [lia | apply read_csv_request_count].
  - apply (requests_within_mono 1); [lia | apply read_excel_request_count].
  - apply (requests_within_mono 1); [lia | apply read_json_request_count].
  - apply read_sqlite_auto_request_count.
  - count_requests.
Qed.

(** X4.  No operation repeats a request, on any path.  A file reader or a
    networked reader makes at most one loader request per call; a SQLite
    operation at most two, the connect and the statement;
    [auto_detect_and_read] at most four, two for listing the tables and two
    for reading one. *)
Theorem requests_bounded w path sheet_name table query kw host database
    username password mtable mquery port project table_id credentials_path :
  keeps (requests_within 1) (read_csv w path kw)
  ∧ keeps (requests_within 1) (read_excel w path sheet_name kw)
  ∧ keeps (requests_within 1) (read_json w path kw)
  ∧ keeps (requests_within 2) (read_sqlite_table w path table kw)
  ∧ keeps (requests_within 2) (read_sqlite_query w path query kw)
  ∧ keeps (requests_within 2) (list_sqlite_tables w path)
  ∧ keeps (requests_within 1)
      (read_mysql w host database username password mtable mquery port kw)
  ∧ keeps (requests_within 1)
      (read_postgresql w host database username password mtable mquery port
         kw)
  ∧ keeps (requests_within 1)
      (read_bigquery w project mquery table_id credentials_path kw)
  ∧ keeps (requests_within 4) (auto_detect_and_read w path kw).
Proof.
  split; [apply read_csv_request_count |].
  split; [apply read_excel_request_count |].
  split; [apply read_json_request_count |].
  split; [apply read_sqlite_table_request_count |].
  split; [apply read_sqlite_query_request_count |].
  split; [apply list_sqlite_tables_request_count |].
  split; [apply read_mysql_request_count |].
  split; [apply read_postgresql_request_count |].
  split; [apply read_bigquery_request_count |].
  apply auto_detect_and_read_request_count.
Qed.

(** ** A frame from the loader *)

Lemma read_csv_delivers w path kw st df :
  csv_file w path kw = Return (PyFrame df) →
  delivers (read_csv w path kw) st (PyFrame df)
    (Success (length (rows df)) (length (columns df))).
Proof.
  intros H. unfold delivers, read_csv. run. rewrite H.
  cbn [getattr_shape shape fst snd stdout]. split; [done | apply last_snoc].
Qed.

Lemma read_json_delivers w path kw st df :
  json_file w path kw = Return (PyFrame df) →
  delivers (read_json w path kw) st (PyFrame df)
    (Success (length (rows df)) (length (columns df))).
Proof.
  intros H. unfold delivers, read_json. run. rewrite H.
  cbn [getattr_shape shape fst snd stdout]. split; [done | apply last_snoc].
Qed.

Lemma read_excel_delivers w path sheet_name kw st df :
  excel_loader w path sheet_name kw = Return (PyFrame df) →
  delivers (read_excel w path sheet_name kw) st (PyFrame df)
    (Success (length (rows df)) (length (columns df))).
Proof.
  intros H. unfold delivers, read_excel. run. rewrite H.
  destruct (truthy sheet_name);
    cbn [getattr_shape shape fst snd stdout]; (split; [done | apply last_snoc]).
Qed.

Lemma read_sqlite_table_delivers w path table kw st df :
  sqlite_open w path = Return tt →
  sqlite_select w path ("SELECT * FROM " +:+ py_str table) kw
  = Return (PyFrame df) →
  delivers (read_sqlite_table w path table kw) st (PyFrame df)
    (Success (length (rows df)) (length (columns df))).
Proof.
  intros Ho H. unfold delivers, read_sqlite_table, try_except.
  rewrite bind_run. cbn [print]. rewrite bind_run, with_connect_select, Ho, H.
  run. cbn [getattr_shape shape fst snd stdout].
  split; [done | apply last_snoc].
Qed.

Lemma read_sqlite_query_delivers w path query kw st df :
  sqlite_open w path = Return tt →
  sqlite_select w path query kw = Return (PyFrame df) →
  delivers (read_sqlite_query w path query kw) st (PyFrame df)
    (Success (length (rows df)) (length (columns df))).
Proof.
  intros Ho H. unfold delivers, read_sqlite_query, try_except.
  rewrite bind_run. cbn [print]. rewrite bind_run. cbn [print].
  rewrite bind_run, with_connect_select, Ho, H.
  run. cbn [getattr_shape shape fst snd stdout].
  split; [done | apply last_snoc].
Qed.

Lemma read_mysql_delivers w host database username password table query port
    kw st sql df :
  importable w "pymysql" = true →
  chosen query table (λ t, "SELECT * FROM " +:+ t) sql →
  sql_server w (mysql_url username password host port database) sql kw
  = Return (PyFrame df) →
  delivers (read_mysql w host database username password table query port kw)
    st (PyFrame df) (Success (length (rows df)) (length (columns df))).
Proof.
  intros Hm Hsql H. unfold delivers, read_mysql.
  rewrite bind_run, require_present by done.
  destruct Hsql as [(Hq & ->) | (Hq & Ht & ->)]; rewrite Hq, ?Ht;
    run; cbv [str_of default] in H; rewrite H;
    cbn [getattr_shape shape fst snd stdout]; (split; [done | apply last_snoc]).
Qed.

Lemma read_postgresql_delivers w host database username password table query
    port kw st sql df :
  importable w "psycopg2" = true →
  chosen query table (λ t, "SELECT * FROM " +:+ t) sql →
  sql_server w (postgresql_url username password host port database) sql kw
  = Return (PyFrame df) →
  delivers
    (read_postgresql w host database username password table query port kw)
    st (PyFrame df) (Success (length (rows df)) (length (columns df))).
Proof.
  intros Hm Hsql H. unfold delivers, read_postgresql.
  rewrite bind_run, require_present by done.
  destruct Hsql as [(Hq & ->) | (Hq & Ht & ->)]; rewrite Hq, ?Ht;
    run; cbv [str_of default] in H; rewrite H;
    cbn [getattr_shape shape fst snd stdout]; (split; [done | apply last_snoc]).
Qed.

Lemma read_bigquery_delivers w project query table_id cp kw st sql df :
  importable w "pandas_gbq" = true →
  has_nul (str_of cp) = false →
  chosen query table_id (λ t, "SELECT * FROM `" +:+ t +:+ "`") sql →
  bigquery w (exported cp (environ st)) project sql kw
  = Return (PyFrame df) →
  delivers (read_bigquery w project query table_id cp kw) st (PyFrame df)
    (Success (length (rows df)) (length (columns df))).
Proof.
  intros Hm Hn Hsql H. unfold delivers, read_bigquery, exported in *.
  rewrite bind_run, require_present by done.
  destruct Hsql as [(Hq & ->) | (Hq & Ht & ->)]; rewrite Hq, ?Ht;
    destruct (given cp); run; export Hn; cbv [str_of default id] in H;
    rewrite H;
    cbn [getattr_shape shape fst snd stdout]; (split; [done | apply last_snoc]).
Qed.

(** X5.  When the loader hands back a frame, the reader returns that very
    frame, and the last line it prints reports the frame's own number of
    rows and of columns.  This holds for each of the eight readers that
    delegate to a loader directly ([read_bigquery] reaches its loader when
    the credentials path, if any, holds no NUL character). *)
Theorem frame_returned_and_reported w st df :
  (∀ path kw,
     csv_file w path kw = Return (PyFrame df) →
     delivers (read_csv w path kw) st (PyFrame df)
       (Success (length (rows df)) (length (columns df))))
  ∧ (∀ path sheet_name kw,
       excel_loader w path sheet_name kw = Return (PyFrame df) →
       delivers (read_excel w path sheet_name kw) st (PyFrame df)
         (Success (length (rows df)) (length (columns df))))
  ∧ (∀ path kw,
       json_file w path kw = Return (PyFrame df) →
       delivers (read_json w path kw) st (PyFrame df)
         (Success (length (rows df)) (length (columns df))))
  ∧ (∀ path table kw,
       sqlite_open w path = Return tt →
       sqlite_select w path ("SELECT * FROM " +:+ py_str table) kw
       = Return (PyFrame df) →
       delivers (read_sqlite_table w path table kw) st (PyFrame df)
         (Success (length (rows df)) (length (columns df))))
  ∧ (∀ path query kw,
       sqlite_open w path = Return tt →
       sqlite_select w path query kw = Return (PyFrame df) →
       delivers (read_sqlite_query w path query kw) st (PyFrame df)
         (Success (length (rows df)) (length (columns df))))
  ∧ (∀ host database username password table query port kw sql,
       importable w "pymysql" = true →
       chosen query table (λ t, "SELECT * FROM " +:+ t) sql →
       sql_server w (mysql_url username password host port database) sql kw
       = Return (PyFrame df) →
       delivers
         (read_mysql w host database username password table query port kw)
         st (PyFrame df) (Success (length (rows df)) (length (columns df))))
  ∧ (∀ host database username password table query port kw sql,
       importable w "psycopg2" = true →
       chosen query table (λ t, "SELECT * FROM " +:+ t) sql →
       sql_server w (postgresql_url username password host port database)
         sql kw = Return (PyFrame df) →
       delivers
         (read_postgresql w host database username password table query port
            kw)
         st (PyFrame df) (Success (length (rows df)) (length (columns df))))
  ∧ (∀ project query table_id cp kw sql,
       importable w "pandas_gbq" = true →
       has_nul (str_of cp) = false →
       chosen query table_id (λ t, "SELECT * FROM `" +:+ t +:+ "`") sql →
       bigquery w (exported cp (environ st)) project sql kw
       = Return (PyFrame df) →
       delivers (read_bigquery w project query table_id cp kw) st (PyFrame df)
         (Success (length (rows df)) (length (columns df)))).
Proof.
  split; [intros; by apply read_csv_delivers |].
  split; [intros; by apply read_excel_delivers |].
  split; [intros; by apply read_json_delivers |].
  split; [intros; by apply read_sqlite_table_delivers |].
  split; [intros; by apply read_sqlite_query_delivers |].
  split; [intros; by eapply read_mysql_delivers |].
  split; [intros; by eapply read_postgresql_delivers |].
  intros; by eapply read_bigquery_delivers.
Qed.

Lemma frame_returned_and_reported_witness :
  let w := Demo.world true in
  (csv_file w "data.csv" ∅ = Return (PyFrame Demo.users)
   ∧ delivers (read_csv w "data.csv" ∅) initial (PyFrame Demo.users)
       (Success 3 2))
  ∧ (sqlite_open w "app.db" = Return tt
     ∧ sqlite_select w "app.db" "SELECT * FROM orders" ∅
       = Return (PyFrame Demo.orders)
     ∧ delivers (read_sqlite_table w "app.db" (VStr "orders") ∅) initial
         (PyFrame Demo.orders) (Success 1 3))
  ∧ (importable w "pymysql" = true
     ∧ chosen None (Some "users") (λ t, "SELECT * FROM " +:+ t)
         "SELECT * FROM users"
     ∧ delivers
         (read_mysql w "db.local" "shop" "u" "p" (Some "users") None 3306 ∅)
         initial (PyFrame Demo.users) (Success 3 2)).
Proof.
  intros w.
  assert (Hc : chosen None (Some "users") (λ t, "SELECT * FROM " +:+ t)
                 "SELECT * FROM users") by (right; repeat split).
  split.
  { split; [reflexivity |].
    apply (frame_returned_and_reported w initial Demo.users). reflexivity. }
  split.
  { split; [reflexivity |]. split; [reflexivity |].
    destruct (frame_returned_and_reported w initial Demo.orders)
      as (_ & _ & _ & Ht & _).
    apply (Ht "app.db" (VStr "orders") ∅); reflexivity. }
  split; [reflexivity |]. split; [exact Hc |].
  destruct (frame_returned_and_reported w initial Demo.users)
    as (_ & _ & _ & _ & _ & Hm & _).
  apply (Hm "db.local" "shop" "u" "p" (Some "users") None 3306%Z ∅
           "SELECT * FROM users"); [reflexivity | exact Hc | reflexivity].
Defined.

(** ** An object without a shape *)

Lemma read_csv_shapeless w path kw st o e :
  getattr_shape o = Raise e → csv_file w path kw = Return o →
  surfaces (read_csv w path kw) st e [ReqCsv path kw].
Proof.
  intros Hs H. unfold surfaces, read_csv. run. rewrite H, Hs. surface.
Qed.

Lemma read_json_shapeless w path kw st o e :
  getattr_shape o = Raise e → json_file w path kw = Return o →
  surfaces (read_json w path kw) st e [ReqJson path kw].
Proof.
  intros Hs H. unfold surfaces, read_json. run. rewrite H, Hs. surface.
Qed.

Lemma read_excel_shapeless w path sheet_name kw st o e :
  getattr_shape o = Raise e → excel_loader w path sheet_name kw = Return o →
  surfaces (read_excel w path sheet_name kw) st e
    [ReqExcel path sheet_name kw].
Proof.
  intros Hs H. unfold surfaces, read_excel. run. rewrite H.
  destruct (truthy sheet_name); cbn [fst snd issued]; rewrite Hs; surface.
Qed.

Lemma read_sqlite_query_shapeless w path query kw st o e :
  getattr_shape o = Raise e → sqlite_open w path = Return tt →
  sqlite_select w path query kw = Return o →
  surfaces (read_sqlite_query w path query kw) st e
    [ReqConnect path; ReqSelect (length (connections st)) query kw].
Proof.
  intros Hs Ho H. unfold surfaces, read_sqlite_query, try_except.
  rewrite bind_run. cbn [print]. rewrite bind_run. cbn [print].
  rewrite bind_run, with_connect_select, Ho, H. run. rewrite Hs. surface.
Qed.

Lemma read_mysql_shapeless w host database username password table query port
    kw st sql o e :
  getattr_shape o = Raise e → importable w "pymysql" = true →
  chosen query table (λ t, "SELECT * FROM " +:+ t) sql →
  sql_server w (mysql_url username password host port database) sql kw
  = Return o →
  surfaces (read_mysql w host database username password table query port kw)
    st e [ReqSqlUrl (mysql_url username password host port database) sql kw].
Proof.
  intros Hs Hm Hsql H. unfold surfaces, read_mysql.
  rewrite bind_run, require_present by done.
  destruct Hsql as [(Hq & ->) | (Hq & Ht & ->)]; rewrite Hq, ?Ht;
    run; cbv [str_of default] in H; rewrite H, Hs; surface.
Qed.

(** X6.  A loader that succeeds with something that has no [shape], such
    as the dict [read_excel] gets for all sheets or the iterator a
    [chunksize] option produces, does not get its object through: the
    reader raises the exception of the [df.shape] access, having made its
    request once. *)
Theorem shapeless_result_raises w st o e :
  getattr_shape o = Raise e →
  (∀ path kw,
     csv_file w path kw = Return o →
     surfaces (read_csv w path kw) st e [ReqCsv path kw])
  ∧ (∀ path sheet_name kw,
       excel_loader w path sheet_name kw = Return o →
       surfaces (read_excel w path sheet_name kw) st e
         [ReqExcel path sheet_name kw])
  ∧ (∀ path kw,
       json_file w path kw = Return o →
       surfaces (read_json w path kw) st e [ReqJson path kw])
  ∧ (∀ path query kw,
       sqlite_open w path = Return tt →
       sqlite_select w path query kw = Return o →
       surfaces (read_sqlite_query w path query kw) st e
         [ReqConnect path; ReqSelect (length (connections st)) query kw])
  ∧ (∀ host database username password table query port kw sql,
       importable w "pymysql" = true →
       chosen query table (λ t, "SELECT * FROM " +:+ t) sql →
       sql_server w (mysql_url username password host port database) sql kw
       = Return o →
       surfaces
         (read_mysql w host database username password table query port kw)
         st e
         [ReqSqlUrl (mysql_url username password host port database) sql kw]).
Proof.
  intros Hs.
  split; [intros; by eapply read_csv_shapeless |].
  split; [intros; by eapply read_excel_shapeless |].
  split; [intros; by eapply read_json_shapeless |].
  split; [intros; by eapply read_sqlite_query_shapeless |].
  intros; by eapply read_mysql_shapeless.
Qed.

Lemma shapeless_result_raises_witness :
  let w := Demo.world true in
  let sheets := [("Sheet1", Demo.users); ("Sheet2", Demo.orders)] in
  let e := AttributeError "'dict' object has no attribute 'shape'" in
  getattr_shape (PyDict sheets) = Raise e
  ∧ excel_loader w "book.xlsx" VNone ∅ = Return (PyDict sheets)
  ∧ surfaces (read_excel w "book.xlsx" VNone ∅) initial e
      [ReqExcel "book.xlsx" VNone ∅].
Proof.
  intros w sheets e.
  split; [reflexivity |]. split; [reflexivity |].
  destruct (shapeless_result_raises w initial (PyDict sheets) e eq_refl)
    as (_ & Hx & _).
  apply Hx. reflexivity.
Defined.

(** ** A table is read by the query that selects all of it *)

(** X7.  [read_sqlite_table] does what [read_sqlite_query] does on the
    text [SELECT * FROM] followed by the table name as it was passed,
    unquoted: the same result, the same requests, the same connection left
    behind; the two differ in the lines they print only. *)
Theorem read_sqlite_table_as_query w path table kw st :
  let query := "SELECT * FROM " +:+ py_str table in
  let by_table := read_sqlite_table w path table kw st in
  let by_query := read_sqlite_query w path query kw st in
  fst by_table = fst by_query
  ∧ issued (snd by_table) = issued (snd by_query)
  ∧ connections (snd by_table) = connections (snd by_query)
  ∧ environ (snd by_table) = environ (snd by_query).
Proof.
  cbv zeta. unfold read_sqlite_table, read_sqlite_query, try_except.
  rewrite !bind_run. cbn [print]. rewrite !bind_run. cbn [print].
  rewrite !bind_run, !with_connect_select.
  destruct (sqlite_open w path) as [[]|e]; run; outcomes; done.
Qed.

Lemma read_mysql_table_as_query w host database username password t query
    port kw st :
  t ≠ "" → given query = false →
  let by_table :=
    read_mysql w host database username password (Some t) query port kw st in
  let by_query :=
    read_mysql w host database username password None
      (Some ("SELECT * FROM " +:+ t)) port kw st in
  fst by_table = fst by_query
  ∧ issued (snd by_table) = issued (snd by_query)
  ∧ environ (snd by_table) = environ (snd by_query).
Proof.
  intros Ht Hq. cbv zeta. unfold read_mysql. rewrite !bind_run.
  destruct (require w "pymysql" pymysql_missing st) as [[[]|e] st1]; [| done].
  rewrite Hq, (given_nonempty t Ht).
  change (given (Some ("SELECT * FROM " +:+ t))) with true.
  run. unfold id. outcomes; done.
Qed.

Lemma read_postgresql_table_as_query w host database username password t
    query port kw st :
  t ≠ "" → given query = false →
  let by_table :=
    read_postgresql w host database username password (Some t) query port kw
      st in
  let by_query :=
    read_postgresql w host database username password None
      (Some ("SELECT * FROM " +:+ t)) port kw st in
  fst by_table = fst by_query
  ∧ issued (snd by_table) = issued (snd by_query)
  ∧ environ (snd by_table) = environ (snd by_query).
Proof.
  intros Ht Hq. cbv zeta. unfold read_postgresql. rewrite !bind_run.
  destruct (require w "psycopg2" psycopg2_missing st) as [[[]|e] st1];
    [| done].
  rewrite Hq, (given_nonempty t Ht).
  change (given (Some ("SELECT * FROM " +:+ t))) with true.
  run. unfold id. outcomes; done.
Qed.

Lemma read_bigquery_table_as_query w project t query cp kw st :
  t ≠ "" → given query = false →
  let by_table := read_bigquery w project query (Some t) cp kw st in
  let by_query :=
    read_bigquery w project (Some ("SELECT * FROM `" +:+ t +:+ "`")) None cp
      kw st in
  fst by_table = fst by_query
  ∧ issued (snd by_table) = issued (snd by_query)
  ∧ environ (snd by_table) = environ (snd by_query).
Proof.
  intros Ht Hq. cbv zeta. unfold read_bigquery. rewrite !bind_run.
  destruct (require w "pandas_gbq" pandas_gbq_missing st) as [[[]|e] st1];
    [| done].
  rewrite Hq, (given_nonempty t Ht).
  change (given (Some ("SELECT * FROM `" +:+ t +:+ "`"))) with true.
  run. unfold id.
  destruct (given cp); assignment; outcomes; done.
Qed.

(** X8.  For the networked readers a table is shorthand for a query.  With
    no query in force, [read_mysql] and [read_postgresql] on a non-empty
    table name do what they do on the query [SELECT * FROM] followed by
    that name, and [read_bigquery] on a table id what it does on that query
    with the id between backquotes: the same result, the same request, the
    same environment.  The name is spliced in as it is. *)
Theorem table_is_select_all w host database username password project t query
    credentials_path port kw st :
  t ≠ "" → given query = false →
  (let by_table :=
     read_mysql w host database username password (Some t) query port kw st in
   let by_query :=
     read_mysql w host database username password None
       (Some ("SELECT * FROM " +:+ t)) port kw st in
   fst by_table = fst by_query
   ∧ issued (snd by_table) = issued (snd by_query)
   ∧ environ (snd by_table) = environ (snd by_query))
  ∧ (let by_table :=
       read_postgresql w host database username password (Some t) query port
         kw st in
     let by_query :=
       read_postgresql w host database username password None
         (Some ("SELECT * FROM " +:+ t)) port kw st in
     fst by_table = fst by_query
     ∧ issued (snd by_table) = issued (snd by_query)
     ∧ environ (snd by_table) = environ (snd by_query))
  ∧ (let by_table :=
       read_bigquery w project query (Some t) credentials_path kw st in
     let by_query :=
       read_bigquery w project (Some ("SELECT * FROM `" +:+ t +:+ "`")) None
         credentials_path kw st in
     fst by_table = fst by_query
     ∧ issued (snd by_table) = issued (snd by_query)
     ∧ environ (snd by_table) = environ (snd by_query)).
Proof.
  intros Ht Hq.
  split; [by apply read_mysql_table_as_query |].
  split; [by apply read_postgresql_table_as_query |].
  by apply read_bigquery_table_as_query.
Qed.

Lemma table_is_select_all_witness :
  let w := Demo.world true in
  "orders" ≠ ""
  ∧ given (Some "") = false
  ∧ fst (read_mysql w "db.local" "shop" "u" "p" (Some "orders") (Some "")
           3306 ∅ initial)
    = Return (PyFrame Demo.orders)
  ∧ fst (read_mysql w "db.local" "shop" "u" "p" None
           (Some "SELECT * FROM orders") 3306 ∅ initial)
    = Return (PyFrame Demo.orders).
Proof.
  intros w.
  assert (Ht : "orders" ≠ "") by discriminate.
  destruct (table_is_select_all w "db.local" "shop" "u" "p" "proj" "orders"
              (Some "") None 3306 ∅ initial Ht eq_refl) as ((Hm & _) & _).
  split; [exact Ht |]. split; [reflexivity |].
  cbv zeta in Hm. rewrite Hm. split; reflexivity.
Defined.

(** ** Blank arguments *)

Lemma read_mysql_blank w host database username password table query port kw
    st :
  given table = false → given query = false →
  importable w "pymysql" = true →
  surfaces (read_mysql w host database username password table query port kw)
    st (ValueError table_or_query_required) [].
Proof.
  intros Ht Hq Hm. unfold surfaces, read_mysql.
  rewrite bind_run, require_present, Hq, Ht by done.
  split; [reflexivity | by rewrite app_nil_r].
Qed.

Lemma read_postgresql_blank w host database username password table query
    port kw st :
  given table = false → given query = false →
  importable w "psycopg2" = true →
  surfaces
    (read_postgresql w host database username password table query port kw)
    st (ValueError table_or_query_required) [].
Proof.
  intros Ht Hq Hm. unfold surfaces, read_postgresql.
  rewrite bind_run, require_present, Hq, Ht by done.
  split; [reflexivity | by rewrite app_nil_r].
Qed.

Lemma read_bigquery_blank w project query table_id cp kw st :
  given table_id = false → given query = false →
  importable w "pandas_gbq" = true →
  has_nul (str_of cp) = false →
  surfaces (read_bigquery w project query table_id cp kw) st
    (ValueError query_or_table_id_required) [].
Proof.
  intros Ht Hq Hm Hn. unfold surfaces, read_bigquery.
  rewrite bind_run, require_present, Hq, Ht by done.
  run. export Hn.
  destruct (given cp); split; try reflexivity; by rewrite app_nil_r.
Qed.

(** X9.  An empty string is no better than [None]: when neither the table
    (or table id) nor the query is a non-empty string, each networked
    reader whose driver is present raises its [ValueError] and makes no
    request ([read_bigquery] gets to that check when the credentials path,
    if any, holds no NUL character). *)
Theorem blank_arguments_rejected w host database username password project
    table query credentials_path port kw st :
  given table = false → given query = false →
  (importable w "pymysql" = true →
   surfaces (read_mysql w host database username password table query port kw)
     st (ValueError table_or_query_required) [])
  ∧ (importable w "psycopg2" = true →
     surfaces
       (read_postgresql w host database username password table query port kw)
       st (ValueError table_or_query_required) [])
  ∧ (importable w "pandas_gbq" = true →
     has_nul (str_of credentials_path) = false →
     surfaces (read_bigquery w project query table credentials_path kw) st
       (ValueError query_or_table_id_required) []).
Proof.
  intros Ht Hq.
  split; [by apply read_mysql_blank |].
  split; [by apply read_postgresql_blank |].
  by apply read_bigquery_blank.
Qed.

Lemma blank_arguments_rejected_witness :
  let w := Demo.world true in
  given (Some "") = false
  ∧ importable w "pandas_gbq" = true
  ∧ surfaces (read_mysql w "db.local" "shop" "u" "p" (Some "") (Some "") 3306 ∅)
      initial (ValueError table_or_query_required) []
  ∧ surfaces (read_bigquery w "proj" (Some "") (Some "") None ∅) initial
      (ValueError query_or_table_id_required) [].
Proof.
  intros w.
  destruct (blank_arguments_rejected w "db.local" "shop" "u" "p" "proj"
              (Some "") (Some "") None 3306 ∅ initial eq_refl eq_refl)
    as (Hm & _ & Hb).
  split; [reflexivity |]. split; [reflexivity |].
  split; [apply Hm | apply Hb]; reflexivity.
Defined.

(** ** Results that do not depend on earlier calls *)



























(** ** The SQLite branch of the dispatcher, once more *)

Lemma read_sqlite_table_connections w path table kw st :
  sqlite_open w path = Return tt →
  ∃ t, connections (snd (read_sqlite_table w path table kw st))
       = (connections st
          ++ [{| db_path := path; is_open := true; last_txn := Some t |}])%list.
Proof.
  intros Ho. unfold read_sqlite_table, try_except.
  rewrite bind_run. cbn [print]. rewrite bind_run, with_connect_select, Ho.
  exists (ending (sqlite_select w path ("SELECT * FROM " +:+ py_str table) kw)).
  run. outcomes; reflexivity.
Qed.

(** X11.  Auto-detection on a SQLite file with at least one table opens two
    connections, one to list the tables and one to read, and closes
    neither: when the call is over the connection table holds the two of
    them, both open, after the connections that were there before. *)
Theorem auto_detect_leaves_two_connections w path kw st first rest :
  extension path ∈ sqlite_extensions →
  sqlite_open w path = Return tt →
  sqlite_catalog w path = Return (first :: rest) →
  ∃ t,
    connections (snd (auto_detect_and_read w path kw st))
    = (connections st
       ++ [{| db_path := path; is_open := true; last_txn := Some Committed |};
           {| db_path := path; is_open := true; last_txn := Some t |}])%list.
Proof.
  intros Hext Ho Hc. rewrite dispatch_sqlite by exact Hext.
  unfold read_sqlite_auto.
  rewrite bind_run, (list_sqlite_tables_run w path _ _ Ho Hc).
  destruct (kw !! "table") as [table|].
  - match goal with
    | |- context [read_sqlite_table w path ?tb ?k ?s] =>
        destruct (read_sqlite_table_connections w path tb k s Ho) as [t Ht]
    end.
    exists t. rewrite Ht. cbn [connections]. by rewrite <- app_assoc.
  - rewrite bind_run. cbn [print].
    match goal with
    | |- context [read_sqlite_table w path ?tb ?k ?s] =>
        destruct (read_sqlite_table_connections w path tb k s Ho) as [t Ht]
    end.
    exists t. rewrite Ht. cbn [connections]. by rewrite <- app_assoc.
Qed.

Lemma auto_detect_leaves_two_connections_witness :
  let w := Demo.world true in
  extension "app.db" ∈ sqlite_extensions
  ∧ sqlite_open w "app.db" = Return tt
  ∧ sqlite_catalog w "app.db" = Return ["users"; "orders"]
  ∧ length (open_handles (snd (auto_detect_and_read w "app.db" ∅ initial)))
    = 2%nat.
Proof.
  intros w.
  assert (Hext : extension "app.db" ∈ sqlite_extensions)
    by (change (extension "app.db") with ".db"; left).
  destruct (auto_detect_leaves_two_connections w "app.db" ∅ initial "users"
              ["orders"] Hext eq_refl eq_refl) as [t Ht].
  split; [exact Hext |]. split; [reflexivity |]. split; [reflexivity |].
  unfold open_handles. rewrite Ht. reflexivity.
Defined.

Lemma read_sqlite_table_issued w path table kw st :
  ∃ reqs,
    issued (snd (read_sqlite_table w path table kw st))
    = (issued st ++ reqs)%list
    ∧ ∀ conn sql kw', ReqSelect conn sql kw' ∈ reqs → kw' = kw.
Proof.
  unfold read_sqlite_table, try_except.
  rewrite bind_run. cbn [print]. rewrite bind_run, with_connect_select.
  destruct (sqlite_open w path) as [[]|e].
  - eexists [_; _]. split; [run; outcomes; reflexivity |].
    intros conn sql kw' Hin. in_list Hin. by injection Hin.
  - eexists [_]. split; [run; outcomes; reflexivity |].
    intros conn sql kw' Hin. in_list Hin.
Qed.

Lemma list_sqlite_tables_issued w path st :
  ∃ reqs,
    issued (snd (list_sqlite_tables w path st)) = (issued st ++ reqs)%list
    ∧ ∀ conn sql kw', ReqSelect conn sql kw' ∉ reqs.
Proof.
  unfold list_sqlite_tables, try_except.
  rewrite bind_run, with_connect_catalog.
  destruct (sqlite_open w path) as [[]|e].
  - eexists [_; _]. split; [run; outcomes; reflexivity |].
    intros conn sql kw' Hin. in_list Hin.
  - eexists [_]. split; [run; outcomes; reflexivity |].
    intros conn sql kw' Hin. in_list Hin.
Qed.

(** X12.  On a SQLite path the [table] option is for the connector alone:
    whatever the options hold, no [SELECT] that the call sends to the
    loader carries a [table] keyword. *)
Theorem auto_detect_keeps_table_option w path kw st :
  extension path ∈ sqlite_extensions →
  ∃ reqs,
    issued (snd (auto_detect_and_read w path kw st)) = (issued st ++ reqs)%list
    ∧ ∀ conn sql kw', ReqSelect conn sql kw' ∈ reqs → kw' !! "table" = None.
Proof.
  intros Hext. rewrite dispatch_sqlite by exact Hext.
  unfold read_sqlite_auto. rewrite bind_run.
  destruct (list_sqlite_tables_issued w path (announced path st))
    as (r1 & H1 & N1).
  change (issued (announced path st)) with (issued st) in H1.
  destruct (list_sqlite_tables w path (announced path st))
    as [[tables|e] st1]; cbn [snd] in *.
  - destruct tables as [|first rest].
    + exists r1. split; [exact H1 |]. intros conn sql kw' Hin.
      by destruct (N1 conn sql kw').
    + destruct (kw !! "table") as [table|] eqn:Hkw.
      * destruct (read_sqlite_table_issued w path table (delete "table" kw)
                    st1) as (r2 & H2 & K2).
        exists (r1 ++ r2)%list. split; [by rewrite H2, H1, app_assoc |].
        intros conn sql kw' [Hin|Hin]%elem_of_app.
        -- by destruct (N1 conn sql kw').
        -- rewrite (K2 conn sql kw' Hin). apply lookup_delete_eq.
      * rewrite bind_run. cbn [print].
        match goal with
        | |- context [read_sqlite_table w path ?tb kw ?s] =>
            destruct (read_sqlite_table_issued w path tb kw s)
              as (r2 & H2 & K2)
        end.
        cbn [issued] in H2.
        exists (r1 ++ r2)%list. split; [by rewrite H2, H1, app_assoc |].
        intros conn sql kw' [Hin|Hin]%elem_of_app.
        -- by destruct (N1 conn sql kw').
        -- by rewrite (K2 conn sql kw' Hin).
  - exists r1. split; [exact H1 |]. intros conn sql kw' Hin.
    by destruct (N1 conn sql kw').
Qed.

Lemma auto_detect_keeps_table_option_witness :
  let w := Demo.world true in
  let st' := snd (auto_detect_and_read w "app.db" {["table" := VStr "orders"]}
                    initial) in
  extension "app.db" ∈ sqlite_extensions
  ∧ ReqSelect 1 "SELECT * FROM orders" ∅ ∈ issued st'
  ∧ ∀ conn sql kw', ReqSelect conn sql kw' ∈ issued st' →
                    kw' !! "table" = None.
Proof.
  intros w st'.
  assert (Hext : extension "app.db" ∈ sqlite_extensions)
    by (change (extension "app.db") with ".db"; left).
  destruct (auto_detect_keeps_table_option w "app.db"
              {["table" := VStr "orders"]} initial Hext)
    as (reqs & Heq & Hno).
  split; [exact Hext |].
  split; [do 3 right; left |].
  subst st'. rewrite Heq. exact Hno.
Defined.

(** ** Excel through the dispatcher *)

(** X13.  Auto-detection on an Excel path with no [sheet_name] among the
    options never returns a table: the dispatcher calls [read_excel] with
    the default sheet name, so a workbook that can be read ends in the
    [AttributeError] of the dict of sheets, and one that cannot in the
    loader's own failure. *)
Theorem auto_detect_excel_needs_sheet_name w path kw st :
  extension path = ".xlsx" ∨ extension path = ".xls" →
  kw !! "sheet_name" = None →
  fst (auto_detect_and_read w path kw st)
  = match excel_file w path kw with
    | Return _ =>
        Raise (AttributeError "'dict' object has no attribute 'shape'")
    | Raise e => Raise e
    end.
Proof.
  intros Hext Hkw. rewrite dispatch_excel by exact Hext.
  unfold read_excel_kw. rewrite Hkw, delete_id by exact Hkw.
  apply read_excel_all_sheets.
Qed.

Lemma auto_detect_excel_needs_sheet_name_witness :
  let w := Demo.world true in
  (extension "book.xlsx" = ".xlsx" ∨ extension "book.xlsx" = ".xls")
  ∧ (∅ : gmap string pyval) !! "sheet_name" = None
  ∧ fst (auto_detect_and_read w "book.xlsx" ∅ initial)
    = Raise (AttributeError "'dict' object has no attribute 'shape'")
  ∧ fst (auto_detect_and_read w "book.xlsx" {["sheet_name" := VStr "Sheet2"]}
           initial)
    = Return (PyFrame Demo.orders).
Proof.
  intros w.
  assert (Hext : extension "book.xlsx" = ".xlsx" ∨ extension "book.xlsx" = ".xls")
    by (left; reflexivity).
  split; [exact Hext |]. split; [apply lookup_empty |].
  split; [| reflexivity].
  rewrite (auto_detect_excel_needs_sheet_name w "book.xlsx" ∅ initial Hext
             (lookup_empty _)).
  reflexivity.
Defined.

(** ** The credentials variable across calls *)

Lemma read_bigquery_environ_after w project query table_id cp kw st :
  environ (snd (read_bigquery w project query table_id cp kw st))
  = if importable w "pandas_gbq" && negb (has_nul (str_of cp))
    then exported cp (environ st) else environ st.
Proof.
  unfold read_bigquery, exported. rewrite bind_run.
  destruct (importable w "pandas_gbq") eqn:Hm; cbn [andb].
  - rewrite require_present by done. run. unfold id.
    rewrite ?putenv_error_credentials.
    destruct (given cp); destruct (has_nul _);
      cbn [negb fst snd stdout connections environ issued];
      (destruct (given query); [| destruct (given table_id)]);
      cbn [fst snd stdout connections environ issued]; outcomes; reflexivity.
  - rewrite require_missing by done. reflexivity.
Qed.

Lemma read_bigquery_unencodable w project query table_id cp kw st :
  has_nul (str_of cp) = true → importable w "pandas_gbq" = true →
  surfaces (read_bigquery w project query table_id cp kw) st
    (ValueError "embedded null byte") [].
Proof.
  intros Hn Hm. unfold surfaces, read_bigquery.
  rewrite bind_run, require_present by done.
  destruct cp as [s|]; [| discriminate Hn].
  destruct s as [|c s]; [discriminate Hn |].
  change (given (Some (String c s))) with true.
  run. export Hn. split; [reflexivity | by rewrite app_nil_r].
Qed.

(** X14.  What [read_bigquery] does to the process environment, in full.
    Where the BigQuery module is present and [credentials_path] is a
    non-empty string without a NUL character, the credentials variable is
    set to it, replacing whatever it held.  In every other case the
    environment is not touched: [None], the empty string, the module
    missing, or a path with a NUL character, on which the assignment raises
    its [ValueError] and the call ends there, before any request.  No other
    variable is ever changed, and the outcome of the query makes no
    difference. *)
Theorem read_bigquery_environment w project query table_id credentials_path kw
    st :
  let env' :=
    environ (snd (read_bigquery w project query table_id credentials_path kw
                    st)) in
  (env' = if importable w "pandas_gbq"
             && negb (has_nul (str_of credentials_path))
          then exported credentials_path (environ st) else environ st)
  ∧ (∀ k, k ≠ credentials_variable → env' !! k = environ st !! k)
  ∧ (given credentials_path = false → env' = environ st)
  ∧ (has_nul (str_of credentials_path) = true →
     env' = environ st
     ∧ (importable w "pandas_gbq" = true →
        surfaces
          (read_bigquery w project query table_id credentials_path kw) st
          (ValueError "embedded null byte") [])).
Proof.
  cbv zeta. rewrite read_bigquery_environ_after. split; [reflexivity |].
  unfold exported.
  split; [| split].
  - intros k Hk.
    destruct (importable w "pandas_gbq" && negb (has_nul (str_of credentials_path))),
             (given credentials_path); try done.
    by rewrite lookup_insert_ne.
  - intros ->. by destruct (importable w "pandas_gbq" && _).
  - intros Hn. rewrite Hn, andb_false_r. split; [done |].
    intros Hm. by apply read_bigquery_unencodable.
Qed.

Lemma read_bigquery_environment_witness :
  let w := Demo.world true in
  let st := mk_state [] [] {["GOOGLE_APPLICATION_CREDENTIALS" := "/old.json";
                            "HOME" := "/home/ada"]} [] in
  let env' := environ (snd (read_bigquery w "proj" (Some "SELECT 1") None
                              (Some "/keys/sa.json") ∅ st)) in
  let bad := "/keys/" +:+ String Ascii.zero "sa.json" in
  "HOME" ≠ credentials_variable
  ∧ env' !! "HOME" = Some "/home/ada"
  ∧ env' !! credentials_variable = Some "/keys/sa.json"
  ∧ given (Some "") = false
  ∧ environ (snd (read_bigquery w "proj" (Some "SELECT 1") None (Some "") ∅
                    st)) = environ st
  ∧ has_nul (str_of (Some bad)) = true
  ∧ environ (snd (read_bigquery w "proj" (Some "SELECT 1") None (Some bad) ∅
                    st)) = environ st.
Proof.
  intros w st env' bad.
  assert (Hk : "HOME" ≠ credentials_variable) by discriminate.
  destruct (read_bigquery_environment w "proj" (Some "SELECT 1") None
              (Some "/keys/sa.json") ∅ st) as (_ & Hother & _).
  destruct (read_bigquery_environment w "proj" (Some "SELECT 1") None
              (Some "") ∅ st) as (_ & _ & Hblank & _).
  destruct (read_bigquery_environment w "proj" (Some "SELECT 1") None
              (Some bad) ∅ st) as (_ & _ & _ & Hbad).
  split; [exact Hk |].
  split; [subst env'; by rewrite (Hother "HOME" Hk) |].
  split; [reflexivity |]. split; [reflexivity |].
  split; [apply Hblank; reflexivity |].
  split; [reflexivity |].
  apply Hbad. reflexivity.
Defined.

(** X15.  The credentials of one call are the credentials of the next.
    After a [read_bigquery] with a non-empty [credentials_path] that the
    environment can hold (no NUL character in it), a later [read_bigquery]
    that passes no credentials, in the state the first one left, sends its
    query in an environment where the variable still names the first
    call's file. *)
Theorem credentials_outlive_the_call w project query table_id cp kw project'
    q' table_id' kw' st :
  cp ≠ "" → has_nul cp = false → q' ≠ "" →
  importable w "pandas_gbq" = true →
  let st1 := snd (read_bigquery w project query table_id (Some cp) kw st) in
  issued (snd (read_bigquery w project' (Some q') table_id' None kw' st1))
  = (issued st1
     ++ [ReqGbq (<[credentials_variable := cp]> (environ st)) project' q'
           kw'])%list.
Proof.
  intros Hc Hn Hq Hm. cbv zeta.
  rewrite (read_bigquery_issues_query w project' q' table_id' None kw' _
             Hq Hm eq_refl).
  unfold exported. cbn [given].
  by rewrite read_bigquery_environ.
Qed.

Lemma credentials_outlive_the_call_witness :
  let w := Demo.world true in
  let st1 := snd (read_bigquery w "proj" (Some "SELECT 1") None
                    (Some "/keys/sa.json") ∅ initial) in
  ("/keys/sa.json" ≠ "" ∧ has_nul "/keys/sa.json" = false
   ∧ "SELECT 2" ≠ "" ∧ importable w "pandas_gbq" = true)
  ∧ fst (read_bigquery w "other" (Some "SELECT 2") None None ∅ initial)
    = Raise Demo.no_credentials
  ∧ fst (read_bigquery w "other" (Some "SELECT 2") None None ∅ st1)
    = Return (PyFrame Demo.orders)
  ∧ issued (snd (read_bigquery w "other" (Some "SELECT 2") None None ∅ st1))
    = (issued st1
       ++ [ReqGbq {[credentials_variable := "/keys/sa.json"]} "other"
             "SELECT 2" ∅])%list.
Proof.
  intros w st1.
  assert (Hc : "/keys/sa.json" ≠ "") by discriminate.
  assert (Hq : "SELECT 2" ≠ "") by discriminate.
  pose proof (credentials_outlive_the_call w "proj" (Some "SELECT 1") None
                "/keys/sa.json" ∅ "other" "SELECT 2" None ∅ initial Hc
                eq_refl Hq eq_refl) as H.
  split; [by repeat split |].
  split; [reflexivity |]. split; [reflexivity |].
  exact H.
Defined.

(** ** Cutting strings *)

Lemma length_string_app (a b : string) :
  String.length (a +:+ b) = (String.length a + String.length b)%nat.
Proof.
  induction a as [|c a IH]; [done |].
  change (S (String.length (a +:+ b))
          = S (String.length a + String.length b)).
  by rewrite IH.
Qed.

Lemma length_substring_0 (n : nat) (s : string) :
  String.length (substring 0 n s) = (n `min` String.length s)%nat.
Proof.
  revert s. induction n as [|n IH]; intros [|c s]; cbn; try done.
  by rewrite IH.
Qed.

Lemma substring_0_all (n : nat) (s : string) :
  (String.length s ≤ n)%nat → substring 0 n s = s.
Proof.
  revert s. induction n as [|n IH]; intros [|c s]; cbn; try done.
  - lia.
  - intros Hle. rewrite IH; [done | lia].
Qed.

Lemma substring_drop (n : nat) (s : string) :
  s = substring 0 n s +:+ drop_string n s.
Proof.
  revert s. induction n as [|n IH]; intros s.
  - unfold drop_string.
    rewrite Nat.sub_0_r, (substring_0_all (String.length s) s) by lia.
    by destruct s.
  - destruct s as [|c s]; [done |].
    change (String c s = String c (substring 0 n s +:+ drop_string n s)).
    by rewrite <- IH.
Qed.

Lemma rfind_split (c : ascii) (s : string) (i : nat) :
  rfind c s = Some i →
  ∃ rest,
    drop_string i s = String c rest
    ∧ rfind c rest = None
    ∧ String.length s = (i + S (String.length rest))%nat.
Proof.
  revert i. induction s as [|a s IH]; intros i; [done |].
  cbn [rfind]. destruct (rfind c s) as [j|] eqn:Hj.
  - intros [= <-]. destruct (IH j eq_refl) as (rest & Hd & Hr & Hl).
    exists rest. split; [exact Hd |]. split; [exact Hr |]. cbn. lia.
  - destruct (Ascii.eqb_spec a c) as [->|]; [| done].
    intros [= <-]. exists s. split; [| split; [exact Hj | cbn; lia]].
    unfold drop_string. rewrite Nat.sub_0_r. apply substring_0_all. done.
Qed.

(** X16.  The status line never shows more than the first hundred
    characters of a query.  A query of up to a hundred characters is
    printed whole; a longer one is cut after its hundredth character and
    three dots are put in its place, so the text printed is at most 103
    characters long. *)
Theorem preview_bounded (q : string) :
  (String.length (preview q) ≤ 103)%nat
  ∧ ((String.length q ≤ 100)%nat → preview q = q)
  ∧ ((100 < String.length q)%nat →
     ∃ cut, q = substring 0 100 q +:+ cut
            ∧ cut ≠ ""
            ∧ preview q = substring 0 100 q +:+ "...").
Proof.
  unfold preview.
  split; [| split].
  - rewrite length_string_app, length_substring_0.
    destruct (100 <? String.length q)%nat; cbn [String.length]; lia.
  - intros Hle. rewrite (substring_0_all 100 q Hle).
    destruct (Nat.ltb_spec 100 (String.length q)); [lia |].
    clear. induction q as [|c q IH]; [done |].
    change (String c (q +:+ "") = String c q). by rewrite IH.
  - intros Hlt. exists (drop_string 100 q).
    split; [apply substring_drop |]. split.
    + intros Hcut. pose proof (substring_drop 100 q) as Hq.
      rewrite Hcut in Hq. apply (f_equal String.length) in Hq.
      rewrite length_string_app, length_substring_0 in Hq. cbn [String.length] in Hq. lia.
    + by destruct (Nat.ltb_spec 100 (String.length q)); [| lia].
Qed.

Lemma preview_bounded_witness :
  (String.length "SELECT * FROM users" ≤ 100)%nat
  ∧ preview "SELECT * FROM users" = "SELECT * FROM users".
Proof.
  destruct (preview_bounded "SELECT * FROM users") as (_ & Hshort & _).
  assert (Hle : (String.length "SELECT * FROM users" ≤ 100)%nat)
    by (cbn; lia).
  split; [exact Hle | exact (Hshort Hle)].
Defined.

(** ** The suffix of a path *)

(** X17.  What the dispatcher takes for the extension is never a stray
    piece of the path: the suffix is either empty or a proper end of the
    final component, a dot followed by at least one character, none of them
    a dot, with at least one character of the name before it.  So a name
    that is all suffix, such as [.csv], has no suffix. *)
Theorem suffix_shape (path : string) :
  Path.suffix path = ""
  ∨ ∃ stem rest,
      Path.name path = stem +:+ Path.suffix path
      ∧ Path.suffix path = String "." rest
      ∧ stem ≠ "" ∧ rest ≠ "" ∧ rfind "." rest = None.
Proof.
  unfold Path.suffix. set (n := Path.name path). cbv zeta.
  destruct (rfind "." n) as [i|] eqn:Hi; [| by left].
  destruct (Nat.ltb_spec 0 i) as [H0|]; [| by left].
  destruct (Nat.ltb_spec i (String.length n - 1)) as [H1|]; [| by left].
  cbn [andb]. right.
  destruct (rfind_split "." n i Hi) as (rest & Hd & Hr & Hl).
  exists (substring 0 i n), rest.
  split; [apply substring_drop |]. split; [exact Hd |].
  split; [| split; [| exact Hr]].
  - intros Hs. apply (f_equal String.length) in Hs.
    rewrite length_substring_0 in Hs. cbn [String.length] in Hs. lia.
  - intros ->. cbn [String.length] in Hl. lia.
Qed.

Example suffix_examples :
  Path.suffix "reports/2024/sales.CSV" = ".CSV"
  ∧ Path.suffix "archive.tar.gz" = ".gz"
  ∧ Path.suffix "backups.d/dump" = ""
  ∧ Path.suffix ".csv" = ""
  ∧ Path.suffix "notes." = ""
  ∧ Path.suffix "data.db/" = ".db".
Proof. repeat split. Qed.

(** ** Letter case *)

Lemma lower_ascii_slash (c : ascii) :
  Ascii.eqb (lower_ascii c) "/" = Ascii.eqb c "/".
Proof. by destruct c as [[] [] [] [] [] [] [] []]. Qed.

Lemma lower_ascii_dot (c : ascii) :
  Ascii.eqb (lower_ascii c) "." = Ascii.eqb c ".".
Proof. by destruct c as [[] [] [] [] [] [] [] []]. Qed.

Lemma lower_ascii_idemp (c : ascii) :
  lower_ascii (lower_ascii c) = lower_ascii c.
Proof. by destruct c as [[] [] [] [] [] [] [] []]. Qed.

Lemma lower_idemp (s : string) : lower (lower s) = lower s.
Proof.
  induction s as [|c s IH]; [done |].
  cbn [lower]. by rewrite lower_ascii_idemp, IH.
Qed.

Lemma lower_app (a b : string) : lower (a +:+ b) = lower a +:+ lower b.
Proof.
  induction a as [|c a IH]; [done |].
  change (String (lower_ascii c) (lower (a +:+ b))
          = String (lower_ascii c) (lower a +:+ lower b)).
  by rewrite IH.
Qed.

Lemma length_lower (s : string) : String.length (lower s) = String.length s.
Proof. induction s as [|c s IH]; cbn; [done | by rewrite IH]. Qed.

Lemma lower_eq_empty (s : string) : lower s = "" ↔ s = "".
Proof. by destruct s. Qed.

Lemma lower_eq_dot (s : string) : lower s = "." ↔ s = ".".
Proof.
  destruct s as [|c [|c' s]]; [done | | done].
  cbn [lower]. split; intros [= H]; f_equal.
  - apply Ascii.eqb_eq. rewrite <- lower_ascii_dot. by apply Ascii.eqb_eq.
  - by subst.
Qed.

Lemma split_slash_lower (cur s : string) :
  split_slash (lower cur) (lower s) = lower <$> split_slash cur s.
Proof.
  revert cur. induction s as [|c s IH]; intros cur; [done |].
  cbn [lower split_slash]. rewrite lower_ascii_slash.
  destruct (Ascii.eqb c "/").
  - rewrite fmap_cons. f_equal. apply (IH "").
  - rewrite <- IH, lower_app. reflexivity.
Qed.

Lemma parts_lower (path : string) :
  Path.parts (lower path) = lower <$> Path.parts path.
Proof.
  unfold Path.parts.
  change (split_slash "" (lower path))
    with (split_slash (lower "") (lower path)).
  rewrite (split_slash_lower "" path).
  induction (split_slash "" path) as [|p l IH]; [done |].
  rewrite fmap_cons, !filter_cons, IH.
  destruct (decide (lower p ≠ "" ∧ lower p ≠ ".")) as [Hl|Hl],
           (decide (p ≠ "" ∧ p ≠ ".")) as [Hp|Hp]; try done.
  - destruct Hp. destruct Hl as [H1 H2]. split.
    + intros ->. by apply H1.
    + intros ->. by apply H2.
  - destruct Hl. destruct Hp as [H1 H2]. split.
    + intros H. apply H1. by apply lower_eq_empty.
    + intros H. apply H2. by apply lower_eq_dot.
Qed.

Lemma last_lower (l : list string) :
  List.last (lower <$> l) "" = lower (List.last l "").
Proof.
  induction l as [|p [|p' l] IH]; [done.. |].
  exact IH.
Qed.

Lemma rfind_lower (s : string) : rfind "." (lower s) = rfind "." s.
Proof.
  induction s as [|c s IH]; [done |].
  cbn [lower rfind]. by rewrite IH, lower_ascii_dot.
Qed.

Lemma substring_lower (i n : nat) (s : string) :
  substring i n (lower s) = lower (substring i n s).
Proof.
  revert i n. induction s as [|c s IH]; intros [|i] [|n]; try done.
  - cbn [lower substring]. by rewrite IH.
  - cbn [lower substring]. by rewrite IH.
  - cbn [lower substring]. by rewrite IH.
Qed.

Lemma suffix_lower (path : string) :
  Path.suffix (lower path) = lower (Path.suffix path).
Proof.
  unfold Path.suffix, Path.name. rewrite parts_lower, last_lower.
  set (n := List.last (Path.parts path) ""). cbv zeta.
  rewrite rfind_lower, length_lower.
  destruct (rfind "." n) as [i|]; [| done].
  destruct ((0 <? i)%nat && (i <? String.length n - 1)%nat); [| done].
  unfold drop_string. by rewrite length_lower, substring_lower.
Qed.

(** X18.  Letter case plays no part in the dispatch, anywhere in the path:
    a path and the same path in lower case have the same extension, so
    [auto_detect_and_read] takes the same branch for both. *)
Theorem extension_ignores_case (path : string) :
  extension (lower path) = extension path.
Proof. unfold extension. by rewrite suffix_lower, lower_idemp. Qed.

Example extension_examples :
  extension "Reports/Q1/SALES.XLSX" = ".xlsx"
  ∧ extension "reports/q1/sales.xlsx" = ".xlsx"
  ∧ extension "Dump.SQLite3" = ".sqlite3"
  ∧ extension "README" = "".
Proof. repeat split. Qed.

(** ** Listing the tables *)

(** X19.  [list_sqlite_tables] returns the names the catalog yields, all of
    them and in the catalog's order, and says so in its last line; a
    database without tables gives the empty list, not an error. *)
Theorem list_sqlite_tables_returns_catalog w path tables st :
  sqlite_open w path = Return tt →
  sqlite_catalog w path = Return tables →
  delivers (list_sqlite_tables w path) st tables (Found tables).
Proof.
  intros Ho Hc. unfold delivers.
  rewrite (list_sqlite_tables_run w path st tables Ho Hc). cbn [fst snd stdout].
  split; [reflexivity | apply last_snoc].
Qed.

Lemma list_sqlite_tables_returns_catalog_witness :
  let w := Demo.world true in
  (sqlite_open w "app.db" = Return tt
   ∧ sqlite_catalog w "app.db" = Return ["users"; "orders"]
   ∧ sqlite_catalog w "empty.db" = Return [])
  ∧ delivers (list_sqlite_tables w "app.db") initial ["users"; "orders"]
      (Found ["users"; "orders"])
  ∧ delivers (list_sqlite_tables w "empty.db") initial [] (Found []).
Proof.
  intros w. split; [by repeat split |].
  split.
  - by apply (list_sqlite_tables_returns_catalog w "app.db").
  - by apply (list_sqlite_tables_returns_catalog w "empty.db").
Defined.

(** ** Failures in the log *)

Lemma reraise_logged {A} (body : M A) (what : string) st e :
  fst (try_except body is_Exception (reraise what) st) = Raise e →
  is_Exception e = true →
  last (stdout (snd (try_except body is_Exception (reraise what) st)))
  = Some (Error (what +:+ ": " +:+ exn_msg e)).
Proof.
  unfold try_except. destruct (body st) as [[a|e'] st1]; [done |].
  destruct (is_Exception e') eqn:He'.
  - run. intros [= ->] _. apply last_snoc.
  - cbn [fst]. intros [= ->] He. congruence.
Qed.

Lemma after_require_logged w module msg (body : M pyobj) what st e :
  importable w module = true →
  fst ((require w module msg;; try_except body is_Exception (reraise what)) st)
  = Raise e →
  is_Exception e = true →
  last (stdout (snd ((require w module msg;;
                      try_except body is_Exception (reraise what)) st)))
  = Some (Error (what +:+ ": " +:+ exn_msg e)).
Proof.
  intros Hm. rewrite bind_run, require_present by done. apply reraise_logged.
Qed.

(** X20.  A failure is logged before it is passed on: whenever a reader
    raises an exception that [except Exception] catches, the last line it
    has printed is its error line, ending in the message of that very
    exception.  For the networked readers this holds once the driver is
    present; the [ImportError] of a missing driver is raised ahead of the
    [try] and leaves no line. *)
Theorem failure_logged w path sheet_name table query kw host database username
    password mtable mquery port project table_id credentials_path st e :
  is_Exception e = true →
  (fst (read_csv w path kw st) = Raise e →
   last (stdout (snd (read_csv w path kw st)))
   = Some (Error ("Error reading CSV file: " +:+ exn_msg e)))
  ∧ (fst (read_excel w path sheet_name kw st) = Raise e →
     last (stdout (snd (read_excel w path sheet_name kw st)))
     = Some (Error ("Error reading Excel file: " +:+ exn_msg e)))
  ∧ (fst (read_json w path kw st) = Raise e →
     last (stdout (snd (read_json w path kw st)))
     = Some (Error ("Error reading JSON file: " +:+ exn_msg e)))
  ∧ (fst (read_sqlite_table w path table kw st) = Raise e →
     last (stdout (snd (read_sqlite_table w path table kw st)))
     = Some (Error ("Error reading SQLite table: " +:+ exn_msg e)))
  ∧ (fst (read_sqlite_query w path query kw st) = Raise e →
     last (stdout (snd (read_sqlite_query w path query kw st)))
     = Some (Error ("Error executing SQLite query: " +:+ exn_msg e)))
  ∧ (fst (list_sqlite_tables w path st) = Raise e →
     last (stdout (snd (list_sqlite_tables w path st)))
     = Some (Error ("Error listing SQLite tables: " +:+ exn_msg e)))
  ∧ (importable w "pymysql" = true →
     fst (read_mysql w host database username password mtable mquery port kw
            st) = Raise e →
     last (stdout (snd (read_mysql w host database username password mtable
                          mquery port kw st)))
     = Some (Error ("Error reading from MySQL: " +:+ exn_msg e)))
  ∧ (importable w "psycopg2" = true →
     fst (read_postgresql w host database username password mtable mquery
            port kw st) = Raise e →
     last (stdout (snd (read_postgresql w host database username password
                          mtable mquery port kw st)))
     = Some (Error ("Error reading from PostgreSQL: " +:+ exn_msg e)))
  ∧ (importable w "pandas_gbq" = true →
     fst (read_bigquery w project mquery table_id credentials_path kw st)
     = Raise e →
     last (stdout (snd (read_bigquery w project mquery table_id
                          credentials_path kw st)))
     = Some (Error ("Error reading from BigQuery: " +:+ exn_msg e)))
  ∧ (importable w "pymysql" = false →
     stdout (snd (read_mysql w host database username password mtable mquery
                    port kw st)) = stdout st).
Proof.
  intros He.
  split; [intros Hr; by apply (reraise_logged _ "Error reading CSV file") |].
  split; [intros Hr; by apply (reraise_logged _ "Error reading Excel file") |].
  split; [intros Hr; by apply (reraise_logged _ "Error reading JSON file") |].
  split; [intros Hr; by apply (reraise_logged _ "Error reading SQLite table") |].
  split;
    [intros Hr; by apply (reraise_logged _ "Error executing SQLite query") |].
  split;
    [intros Hr; by apply (reraise_logged _ "Error listing SQLite tables") |].
  split.
  { intros Hm Hr.
    by apply (after_require_logged w "pymysql" pymysql_missing _
                "Error reading from MySQL"). }
  split.
  { intros Hm Hr.
    by apply (after_require_logged w "psycopg2" psycopg2_missing _
                "Error reading from PostgreSQL"). }
  split.
  { intros Hm Hr.
    by apply (after_require_logged w "pandas_gbq" pandas_gbq_missing _
                "Error reading from BigQuery"). }
  intros Hm. by rewrite read_mysql_missing.
Qed.

Lemma failure_logged_witness :
  let w := Demo.world true in
  let e := Demo.no_such_table "SELECT * FROM missing" in
  is_Exception e = true
  ∧ fst (read_sqlite_query w "app.db" "SELECT * FROM missing" ∅ initial)
    = Raise e
  ∧ last (stdout (snd (read_sqlite_query w "app.db" "SELECT * FROM missing" ∅
                         initial)))
    = Some (Error ("Error executing SQLite query: " +:+ exn_msg e)).
Proof.
  intros w e.
  destruct (failure_logged w "app.db" VNone VNone "SELECT * FROM missing" ∅
              "db.local" "shop" "u" "p" None None 3306 "proj" None None
              initial e eq_refl) as (_ & _ & _ & _ & Hq & _).
  split; [reflexivity |]. split; [reflexivity |].
  apply Hq. reflexivity.
Defined.
